(** * The browser client of the interview trainer ([script.js])

    A shallow embedding of the client-side state controller: the string
    helpers of the host language that the script relies on, the paper
    helpers ([escapeHtml], [useGeneratedPaper]), the conversational
    exchange loop, the recording controller, the screen and section
    navigator and the session store.

    Texts are lists of code units below 256 (the Latin-1 range), so every
    function on characters is total on the character type. *)

From stdpp Require Import gmap strings list.
From Stdlib Require Import Ascii ZArith Lia.

Local Open Scope string_scope.
Local Open Scope list_scope.
Local Open Scope nat_scope.

Abbreviation text := (list ascii).
Coercion String.list_ascii_of_string : string >-> list.

(** ** Part I: definitions *)

(** *** Built-ins of the host language used by the script *)
Module Js.

Definition code (c : ascii) : nat := nat_of_ascii c.

Definition between (lo hi : nat) (c : ascii) : bool :=
  (lo <=? code c) && (code c <=? hi).

Definition LF : ascii := ascii_of_nat 10.
Definition DQ : ascii := ascii_of_nat 34.

(** [\d] of a regular expression. *)
Definition isDigit (c : ascii) : bool := between 48 57 c.

(** White space and line terminators, as [trim] and [parseInt] see them:
    TAB, LF, VT, FF, CR, SP and NBSP. *)
Definition isWhiteSpace (c : ascii) : bool :=
  between 9 13 c || (code c =? 32) || (code c =? 160).

(** [String.prototype.toLowerCase], one code unit at a time: A-Z and the
    Latin-1 capitals (all of 192..222 but the multiplication sign). *)
Definition toLowerChar (c : ascii) : ascii :=
  if between 65 90 c || (between 192 222 c && negb (code c =? 215))
  then ascii_of_nat (code c + 32) else c.

Definition toLowerCase (s : text) : text := map toLowerChar s.

(** Canonical form of a code unit under the [i] flag of a regular
    expression (simple upper-casing). *)
Definition canonicalize (c : ascii) : ascii :=
  if between 97 122 c || (between 224 254 c && negb (code c =? 247))
  then ascii_of_nat (code c - 32) else c.

Fixpoint startsWith (s p : text) {struct p} : bool :=
  match p, s with
  | [], _ => true
  | _ :: _, [] => false
  | a :: p', b :: s' => Ascii.eqb a b && startsWith s' p'
  end.

(** [s.includes(p)] *)
Fixpoint includes (s p : text) : bool :=
  startsWith s p ||
  match s with
  | [] => false
  | _ :: s' => includes s' p
  end.

(** A literal of a regular expression with the [i] flag, matched at the
    head of [s]. *)
Fixpoint startsWith_ci (s p : text) {struct p} : bool :=
  match p, s with
  | [], _ => true
  | _ :: _, [] => false
  | a :: p', b :: s' =>
      Ascii.eqb (canonicalize a) (canonicalize b) && startsWith_ci s' p'
  end.

Fixpoint takeWhile (f : ascii -> bool) (s : text) : text :=
  match s with
  | c :: s' => if f c then c :: takeWhile f s' else []
  | [] => []
  end.

Fixpoint trimStart (s : text) : text :=
  match s with
  | c :: s' => if isWhiteSpace c then trimStart s' else s
  | [] => []
  end.

Definition trimEnd (s : text) : text := rev (trimStart (rev s)).

(** [s.trim()] *)
Definition trim (s : text) : text := trimEnd (trimStart s).

(** Truthiness of a string. *)
Definition truthy (s : text) : bool :=
  match s with [] => false | _ :: _ => true end.

(** [a || b] on strings. *)
Definition orElse (a b : text) : text := if truthy a then a else b.

(** [l.join(sep)] *)
Fixpoint join (sep : text) (l : list text) : text :=
  match l with
  | [] => []
  | x :: l' =>
      match l' with
      | [] => x
      | _ :: _ => x ++ sep ++ join sep l'
      end
  end.

(** [s.split(re)] for a regular expression without groups that never
    matches the empty string.  [sep s] is the length of the match of [re]
    at the head of [s], if there is one.  [skip] counts the code units of
    the current separator still to be dropped, [cur] holds the piece being
    read, reversed. *)
Fixpoint split_go (sep : text -> option nat) (skip : nat) (cur : text)
         (s : text) : list text :=
  match s with
  | [] => [rev cur]
  | c :: s' =>
      match skip with
      | S k => split_go sep k cur s'
      | O =>
          match sep s with
          | Some (S k) => rev cur :: split_go sep k [] s'
          | _ => split_go sep 0 (c :: cur) s'
          end
      end
  end.

Definition split (sep : text -> option nat) (s : text) : list text :=
  split_go sep 0 [] s.

(** [s.replace(/[...]/g, f)] for a class of single code units. *)
Definition replaceClass (cls : ascii -> bool) (f : ascii -> text)
           (s : text) : text :=
  flat_map (fun c => if cls c then f c else [c]) s.

(** Numbers, as far as the script computes with them: an integer or NaN. *)
Inductive num : Type :=
| NaN
| Int (z : Z).

Definition toIntegerOrInfinity (n : num) : Z :=
  match n with NaN => 0%Z | Int z => z end.

Definition digitValue (c : ascii) : Z := Z.of_nat (code c - 48).

Definition digitsValue (ds : text) : Z :=
  fold_left (fun acc c => (10 * acc + digitValue c)%Z) ds 0%Z.

(** [parseInt(s, 10)]: leading white space, an optional sign, then the
    longest run of decimal digits; NaN when there is no digit.  The value
    is kept exact (a double rounds above 2^53, far beyond any length it is
    compared with below). *)
Definition parseInt10 (s : text) : num :=
  let s1 := trimStart s in
  let '(negative, s2) :=
    match s1 with
    | c :: r =>
        if Ascii.eqb c "-" then (true, r)
        else if Ascii.eqb c "+" then (false, r)
        else (false, s1)
    | [] => (false, s1)
    end in
  match takeWhile isDigit s2 with
  | [] => NaN
  | ds => Int (if negative then - digitsValue ds else digitsValue ds)
  end.

(** A relative index of [slice], clamped to [0..len]. *)
Definition relIndex (len rel : Z) : Z :=
  if (rel <? 0)%Z then Z.max (len + rel) 0 else Z.min rel len.

(** [l.slice(start, end)]; [end_ = None] when the argument is left out. *)
Definition slice {A : Type} (l : list A) (start : Z) (end_ : option num)
  : list A :=
  let len := Z.of_nat (length l) in
  let k := relIndex len start in
  let final :=
    match end_ with
    | None => len
    | Some e => relIndex len (toIntegerOrInfinity e)
    end in
  take (Z.to_nat (final - k)) (drop (Z.to_nat k) l).

(** [a || b] where [a] may be [undefined] or [null]. *)
Definition orDefault (a : option text) (b : text) : text :=
  match a with Some v => orElse v b | None => b end.

(** [p] occurs in [t] as a run of consecutive code units. *)
Definition within (p t : text) : Prop :=
  exists before rest, t = before ++ p ++ rest.

End Js.

(** *** The toast shared by all parts of the page *)
Module Ui.

Record Toast : Type := { toast_message : text; toast_type : text }.

Definition toast (message type : text) : Toast :=
  {| toast_message := message; toast_type := type |}.

(** A [classList], read and changed. *)
Definition classContains (c : text) (l : list text) : bool :=
  bool_decide (c ∈ l).

Definition classRemove (c : text) (l : list text) : list text :=
  List.filter (fun k => negb (bool_decide (k = c))) l.

Definition classAdd (c : text) (l : list text) : list text :=
  if classContains c l then l else l ++ [c].

End Ui.

(** *** Screen and section navigator *)
Module Navigator.
Import Js.

(** An element of the page, as far as the navigator looks at it.  The
    elements of a document are listed in document order and name their
    parent by its position in that list. *)
Record Element : Type := {
  el_id : text;                  (* the [id] attribute, empty when absent *)
  classList : list text;
  data_section : option text;    (* the [data-section] attribute *)
  parentElement : option nat
}.

Record Document : Type := {
  elements : list Element;
  scroll : Z * Z                 (* scroll offsets of the window *)
}.

Definition contains (c : text) (e : Element) : bool :=
  Ui.classContains c (classList e).

Definition setClassList (cl : list text) (e : Element) : Element :=
  {| el_id := el_id e; classList := cl;
     data_section := data_section e; parentElement := parentElement e |}.

(** [e.classList.remove(c)] *)
Definition remove (c : text) (e : Element) : Element :=
  setClassList (Ui.classRemove c (classList e)) e.

(** [e.classList.add(c)] *)
Definition add (c : text) (e : Element) : Element :=
  setClassList (Ui.classAdd c (classList e)) e.

(** [querySelectorAll(sel).forEach(f)]: [sel] tells, by position and
    element, what the selector matches. *)
Definition forEach (sel : nat -> Element -> bool) (f : Element -> Element)
           (d : Document) : Document :=
  {| elements := imap (fun i e => if sel i e then f e else e) (elements d);
     scroll := scroll d |}.

(** [f] applied to the element at position [i]. *)
Definition update (i : nat) (f : Element -> Element) (d : Document)
  : Document :=
  {| elements := alter f i (elements d); scroll := scroll d |}.

(** [window.scrollTo(0, 0)] *)
Definition scrollToTop (d : Document) : Document :=
  {| elements := elements d; scroll := (0%Z, 0%Z) |}.

(** The first position from [i] on whose element satisfies [p]. *)
Fixpoint findFrom (p : nat -> Element -> bool) (i : nat) (l : list Element)
  : option nat :=
  match l with
  | [] => None
  | e :: l' => if p i e then Some i else findFrom p (S i) l'
  end.

(** [document.getElementById(id)]; an empty id names no element. *)
Definition getElementById (id : text) (d : Document) : option nat :=
  if truthy id
  then findFrom (fun _ e => bool_decide (el_id e = id)) 0 (elements d)
  else None.

(** Whether the element at [a] is the one at [i] or one of its ancestors. *)
Fixpoint ancestorOrSelf (fuel : nat) (els : list Element) (a i : nat)
  : bool :=
  (a =? i) ||
  match fuel with
  | O => false
  | S n =>
      match els !! i ≫= parentElement with
      | Some p => ancestorOrSelf n els a p
      | None => false
      end
  end.

(** Whether the element at [i] lies strictly below the one at [a]. *)
Definition descendant (els : list Element) (a i : nat) : bool :=
  match els !! i ≫= parentElement with
  | Some p => ancestorOrSelf (length els) els a p
  | None => false
  end.

(** [e.closest('.' + c)] *)
Fixpoint closest (fuel : nat) (c : text) (els : list Element) (i : nat)
  : option nat :=
  match els !! i with
  | None => None
  | Some e =>
      if contains c e then Some i
      else
        match fuel, parentElement e with
        | S n, Some p => closest n c els p
        | _, _ => None
        end
  end.

(** Names that stand for themselves inside the selectors the script
    builds by concatenation: letters, digits, [_] and [-].  Any other
    character changes the syntax of the selector (it may raise a
    [SyntaxError] or select something else); such names are left out of
    the model. *)
Definition nameChar (c : ascii) : bool :=
  between 48 57 c || between 65 90 c || between 97 122 c ||
  Ascii.eqb c "_" || Ascii.eqb c "-".

Definition plainName (s : text) : bool := forallb nameChar s.

(** A plain name that is an identifier: usable after [#]. *)
Definition identName (s : text) : bool :=
  plainName s &&
  match s with
  | [] => false
  | c :: r =>
      if isDigit c then false
      else if Ascii.eqb c "-" then
        match r with
        | [] => false
        | c' :: _ => negb (isDigit c')
        end
      else true
  end.

Definition endsWith (s suffix : text) : bool :=
  startsWith (rev s) (rev suffix).

(** [s.replace(/Section$/, '')] *)
Definition dropSectionSuffix (s : text) : text :=
  if endsWith s "Section" then take (length s - 7) s else s.

Definition showScreen (screenId : text) (d : Document) : Document :=
  let d1 := forEach (fun _ => contains "screen") (remove "active") d in
  match getElementById screenId d1 with
  | Some i => scrollToTop (update i (add "active") d1)
  | None => d1
  end.

(** [None]: the name is outside the plain names. *)
Definition switchSection (sectionId : text) (d : Document)
  : option Document :=
  let d1 := forEach (fun _ => contains "content-section") (remove "active") d in
  let d2 := forEach (fun _ => contains "nav-btn") (remove "active") d1 in
  let d3 :=
    match getElementById sectionId d2 with
    | Some i => update i (add "active") d2
    | None => d2
    end in
  let sectionName := dropSectionSuffix sectionId in
  if plainName sectionName then
    let d4 :=
      match findFrom (fun _ e => bool_decide (data_section e = Some sectionName))
              0 (elements d3) with
      | Some i => update i (add "active") d3
      | None => d3
      end in
    Some (scrollToTop d4)
  else None.

(** The loads a click may start. *)
Inductive Load : Type :=
| LoadAssignments
| LoadSubmissions
| SetupInterview
| SetupLearning
| LoadTeacherPapers
| ClearPaperSelect.

(** [dashboard.querySelector(...)]: the first element below [root] that
    satisfies [p]. *)
Definition querySelectorIn (root : nat) (p : Element -> bool) (d : Document)
  : option nat :=
  findFrom (fun i e => descendant (elements d) root i && p e) 0 (elements d).

Definition hasId (id : text) (e : Element) : bool :=
  bool_decide (el_id e = id).

Definition when (b : bool) (l : Load) : list Load := if b then [l] else [].

(** The click handler of the navigation button at position [btn].
    [None]: there is no such button, or its section name is outside the
    identifier names. *)
Definition navClick (btn : nat) (d : Document)
  : option (Document * list Load) :=
  match elements d !! btn with
  | None => None
  | Some target =>
      let section :=
        match data_section target with
        | Some v => v
        | None => "undefined" : text
        end in
      match closest (length (elements d)) "dashboard-container" (elements d) btn with
      | None => Some (d, [])
      | Some dashboard =>
          let inside := descendant (elements d) dashboard in
          let d1 := forEach (fun i e => inside i && contains "content-section" e)
                            (remove "active") d in
          let d2 := forEach (fun i e => inside i && contains "nav-btn" e)
                            (remove "active") d1 in
          let sectionId := section ++ "Section" in
          if identName sectionId then
            let d3 :=
              match querySelectorIn dashboard (hasId sectionId) d2 with
              | Some i => update i (add "active") d2
              | None => d2
              end in
            let d4 :=
              match querySelectorIn dashboard
                      (fun e => bool_decide (data_section e = Some section)) d3 with
              | Some i => update i (add "active") d3
              | None => d3
              end in
            let has id := bool_decide (is_Some (querySelectorIn dashboard (hasId id) d4)) in
            let named name := bool_decide (section = name) in
            Some (d4,
                  when (has "assignmentsList" && named "assignments") LoadAssignments ++
                  when (has "submissionsList" && named "submissions") LoadSubmissions ++
                  when (has "interviewContainer" && named "interview") SetupInterview ++
                  when (has "learningContainer" && named "learning") SetupLearning ++
                  when (has "papersList" && named "papers") LoadTeacherPapers ++
                  when (has "submissionsTable" && named "submissions"
                        && has "paperSelect") ClearPaperSelect)
          else None
      end
  end.

(** Two lists of elements with the same tree: the same length and, at
    each position, the same parent. *)
Definition sameShape (l l' : list Element) : Prop :=
  length l' = length l /\
  forall i, l' !! i ≫= parentElement = l !! i ≫= parentElement.

(** Two elements that differ at most in their classes. *)
Definition sameButClasses (e e' : Element) : Prop :=
  el_id e' = el_id e /\ data_section e' = data_section e /\
  parentElement e' = parentElement e.

Definition isActive (c : text) (e : Element) : bool :=
  contains c e && contains "active" e.

Fixpoint activeFrom (c : text) (i : nat) (l : list Element) : list nat :=
  match l with
  | [] => []
  | e :: l' => (if isActive c e then [i] else []) ++ activeFrom c (S i) l'
  end.

(** The positions of the elements of class [c] that are active. *)
Definition activeOf (c : text) (d : Document) : list nat :=
  activeFrom c 0 (elements d).

End Navigator.

(** *** Recording controller of the interview *)
Module Recording.

(** The speech recogniser of the browser, as the Web Speech API has it:
    [start] on a recogniser that is listening raises an
    [InvalidStateError] and changes nothing, [stop] on one that is not
    listening is ignored.  [captures] counts the capture sessions begun,
    that is the times the microphone was acquired. *)
Record Recognizer : Type := { listening : bool; captures : nat }.

(** [None]: the call raised. *)
Definition start (r : Recognizer) : option Recognizer :=
  if listening r then None
  else Some {| listening := true; captures := S (captures r) |}.

Definition stop (r : Recognizer) : Recognizer :=
  {| listening := false; captures := captures r |}.

(** The record button: its classes and the text of its label. *)
Record Button : Type := { classList : list text; btn_text : text }.

Record Recorder : Type := {
  isRecording : bool;
  recognition : option Recognizer;     (* [null] without browser support *)
  recordBtn : Button;
  toasts : list Ui.Toast
}.

Definition stopRecording (rc : Recorder) : Recorder :=
  {| isRecording := false;
     recognition := option_map stop (recognition rc);
     recordBtn :=
       {| classList := Ui.classRemove "recording" (classList (recordBtn rc));
          btn_text := "Press to Speak" |};
     toasts := toasts rc |}.

Definition startRecording (rc : Recorder) : Recorder :=
  match recognition rc with
  | None =>
      {| isRecording := isRecording rc;
         recognition := None;
         recordBtn := recordBtn rc;
         toasts := toasts rc
                     ++ [Ui.toast "Speech recognition not supported" "error"] |}
  | Some r =>
      let rc1 :=
        {| isRecording := true;
           recognition := Some r;
           recordBtn :=
             {| classList := Ui.classAdd "recording" (classList (recordBtn rc));
                btn_text := "Listening..." |};
           toasts := toasts rc |} in
      match start r with
      | Some r' =>
          {| isRecording := isRecording rc1; recognition := Some r';
             recordBtn := recordBtn rc1; toasts := toasts rc1 |}
      | None => stopRecording rc1
      end
  end.

Definition toggleRecording (rc : Recorder) : Recorder :=
  if isRecording rc then stopRecording rc else startRecording rc.

Definition holdsMicrophone (rc : Recorder) : bool :=
  match recognition rc with Some r => listening r | None => false end.

Definition acquisitions (rc : Recorder) : nat :=
  match recognition rc with Some r => captures r | None => 0 end.

Definition showsRecording (rc : Recorder) : bool :=
  Ui.classContains "recording" (classList (recordBtn rc)).

(** The two resting states of the controller. *)
Definition Idle (rc : Recorder) : Prop :=
  isRecording rc = false /\ holdsMicrophone rc = false.

Definition Active (rc : Recorder) : Prop :=
  isRecording rc = true /\ holdsMicrophone rc = true.

(** The handler of the [error] event of the recogniser. *)
Definition onerror (rc : Recorder) : Recorder :=
  stopRecording
    {| isRecording := isRecording rc;
       recognition := recognition rc;
       recordBtn := recordBtn rc;
       toasts := toasts rc ++ [Ui.toast "Speech recognition error" "error"] |}.

(** What can happen to the controller: a press of the record button, an
    error of the recogniser, and the two functions called directly. *)
Inductive Op : Type :=
| Press
| SpeechError
| Start
| Stop.

Definition perform (rc : Recorder) (op : Op) : Recorder :=
  match op with
  | Press => toggleRecording rc
  | SpeechError => onerror rc
  | Start => startRecording rc
  | Stop => stopRecording rc
  end.

Definition performAll (rc : Recorder) (ops : list Op) : Recorder :=
  fold_left perform ops rc.

(** The flag, the microphone and the indicator agree. *)
Definition Consistent (rc : Recorder) : Prop :=
  isRecording rc = holdsMicrophone rc /\ showsRecording rc = isRecording rc.

End Recording.

(** *** Session store *)
Module Session.
Import Js.

Record User : Type := { user_id : Z; username : text; user_type : text }.

Record Store : Type := {
  authToken : option text;
  currentUser : option User;
  apiKey : text;
  localStorage : gmap text text;
  page : Navigator.Document;
  toasts : list Ui.Toast
}.

(** What [/api/auth/verify] comes back with: the user of a success
    status, or anything else. *)
Inductive VerifyOutcome : Type :=
| Verified (data : User)
| NotVerified.

Definition showScreen (screenId : text) (s : Store) : Store :=
  {| authToken := authToken s; currentUser := currentUser s;
     apiKey := apiKey s; localStorage := localStorage s;
     page := Navigator.showScreen screenId (page s);
     toasts := toasts s |}.

Definition showToast (message type : text) (s : Store) : Store :=
  {| authToken := authToken s; currentUser := currentUser s;
     apiKey := apiKey s; localStorage := localStorage s;
     page := page s;
     toasts := toasts s ++ [Ui.toast message type] |}.

(** [loadDashboard], as far as the screens go; the header text, the API
    key input and the lists it fetches are not part of this state. *)
Definition loadDashboard (u : User) (s : Store) : Store :=
  showScreen
    (if bool_decide (user_type u = ("teacher" : text))
     then "teacherDashboard" else "studentDashboard") s.

Definition checkAuth (v : VerifyOutcome) (s : Store) : Store :=
  match localStorage s !! ("authToken" : text) with
  | Some token =>
      if truthy token then
        match v with
        | Verified data =>
            loadDashboard data
              {| authToken := Some token; currentUser := Some data;
                 apiKey := apiKey s; localStorage := localStorage s;
                 page := page s; toasts := toasts s |}
        | NotVerified => showScreen "authScreen" s
        end
      else showScreen "authScreen" s
  | None => showScreen "authScreen" s
  end.

(** [handleLogout]; whether the call to [/api/auth/logout] went through
    makes no difference to what follows it. *)
Definition handleLogout (logoutCallFailed : bool) (v : VerifyOutcome)
           (s : Store) : Store :=
  let s1 :=
    {| authToken := None; currentUser := None;
       apiKey := apiKey s;
       localStorage := delete ("authToken" : text) (localStorage s);
       page := page s; toasts := toasts s |} in
  showToast "Logged out successfully" "success" (checkAuth v s1).

(** What [/api/auth/login] comes back with: the call or the parsing of the
    body raised, the status was not a success (with the [error] field of
    the body), or it was, with the token and the user of the body. *)
Inductive LoginOutcome : Type :=
| LoginRaised (message : text)
| LoginRefused (error : option text)
| LoginAccepted (token : text) (user : User).

(** [handleLogin] on the values of the two inputs; the second component is
    the body posted, if any. *)
Definition handleLogin (username password : text) (o : LoginOutcome)
           (s : Store) : Store * option (text * text) :=
  if negb (truthy username) || negb (truthy password) then
    (showToast "Please fill in all fields" "error" s, None)
  else
    (match o with
     | LoginRaised message => showToast ("Login error: " ++ message) "error" s
     | LoginRefused error => showToast (orDefault error "Login failed") "error" s
     | LoginAccepted token user =>
         showToast "Logged in successfully!" "success"
           (loadDashboard user
              {| authToken := Some token; currentUser := Some user;
                 apiKey := apiKey s;
                 localStorage := <[("authToken" : text) := token]> (localStorage s);
                 page := page s; toasts := toasts s |})
     end, Some (username, password)).

(** [saveDashboardApiKey] on the value of the input it names; [None] when
    the page has no such input. *)
Definition saveDashboardApiKey (input : option text) (s : Store) : Store :=
  match input with
  | None => s
  | Some value =>
      let key := trim value in
      if negb (truthy key) then showToast "API key cannot be empty" "error" s
      else
        showToast "API key saved for this browser" "success"
          {| authToken := authToken s; currentUser := currentUser s;
             apiKey := key;
             localStorage := <[("apiKey" : text) := key]> (localStorage s);
             page := page s; toasts := toasts s |}
  end.

(** The page is loaded: the variables have their initial values, the
    stored API key is read and [checkAuth] runs.  [storage] is what durable
    storage holds, [fresh] the page as it is served. *)
Definition onLoad (v : VerifyOutcome) (storage : gmap text text)
           (fresh : Navigator.Document) : Store :=
  checkAuth v
    {| authToken := None; currentUser := None;
       apiKey := orDefault (storage !! ("apiKey" : text)) "";
       localStorage := storage; page := fresh; toasts := [] |}.

End Session.

(** *** Conversational exchange loop *)
Module Exchange.
Import Js.

Inductive Role : Type := user | assistant.

Definition roleName (r : Role) : text :=
  match r with user => "user" | assistant => "assistant" end.

(** An entry of [conversationHistory]; [content] is [None] when the value
    pushed was [undefined]. *)
Record Turn : Type := { role : Role; content : option text }.

(** The body posted to [/api/generate]. *)
Record Request : Type := {
  api_key : text;
  prompt : text;
  history : list Turn
}.

(** What the remote call comes back with: the [fetch], the parsing of the
    body or the reading of its fields raised (with the message of the
    error), or a body arrived, with the success flag of the status and
    the [error] and [response] fields of the body. *)
Inductive FetchOutcome : Type :=
| Rejected (message : text)
| Replied (ok : bool) (error : option text) (response : option text).

(** How a call ends, with the state it leaves behind. *)
Inductive Completion (A : Type) : Type :=
| Returned (a : A)
| Threw (a : A).
Arguments Returned {A} a.
Arguments Threw {A} a.

(** The variables of the script that the loop uses. *)
Record Vars : Type := {
  apiKey : text;
  conversationHistory : list Turn;
  questionCount : nat;
  correctionCount : nat;
  sessionStartTime : option Z;
  durationInterval : bool        (* whether the duration timer is set *)
}.

(** The values of the set-up form. *)
Record Form : Type := {
  interviewType : text;
  difficulty : text;
  practiceMode : text
}.

(** [style.display] of the four containers. *)
Record Layout : Type := {
  setupDisplay : text;
  containerDisplay : text;
  voiceModeDisplay : text;
  chatModeDisplay : text
}.

(** What the page shows and says. *)
Record Panels : Type := {
  voiceTranscript : list text;
  chatMessages : list (text * text);     (* sender, markup *)
  shownStats : nat * nat;                (* questions, corrections *)
  speechQueue : list text;
  toasts : list Ui.Toast
}.

Record Interview : Type := {
  vars : Vars;
  form : Form;
  layout : Layout;
  panels : Panels;
  speechSynthesis : bool;        (* whether the browser can speak *)
  page : Navigator.Document
}.

Definition setVars (v : Vars) (s : Interview) : Interview :=
  {| vars := v; form := form s; layout := layout s; panels := panels s;
     speechSynthesis := speechSynthesis s; page := page s |}.

Definition setLayout (l : Layout) (s : Interview) : Interview :=
  {| vars := vars s; form := form s; layout := l; panels := panels s;
     speechSynthesis := speechSynthesis s; page := page s |}.

Definition setPanels (p : Panels) (s : Interview) : Interview :=
  {| vars := vars s; form := form s; layout := layout s; panels := p;
     speechSynthesis := speechSynthesis s; page := page s |}.

Definition setPage (d : Navigator.Document) (s : Interview) : Interview :=
  {| vars := vars s; form := form s; layout := layout s; panels := panels s;
     speechSynthesis := speechSynthesis s; page := d |}.

Definition setHistory (h : list Turn) (s : Interview) : Interview :=
  setVars {| apiKey := apiKey (vars s); conversationHistory := h;
             questionCount := questionCount (vars s);
             correctionCount := correctionCount (vars s);
             sessionStartTime := sessionStartTime (vars s);
             durationInterval := durationInterval (vars s) |} s.

Definition setQuestionCount (n : nat) (s : Interview) : Interview :=
  setVars {| apiKey := apiKey (vars s);
             conversationHistory := conversationHistory (vars s);
             questionCount := n;
             correctionCount := correctionCount (vars s);
             sessionStartTime := sessionStartTime (vars s);
             durationInterval := durationInterval (vars s) |} s.

Definition setCorrectionCount (n : nat) (s : Interview) : Interview :=
  setVars {| apiKey := apiKey (vars s);
             conversationHistory := conversationHistory (vars s);
             questionCount := questionCount (vars s);
             correctionCount := n;
             sessionStartTime := sessionStartTime (vars s);
             durationInterval := durationInterval (vars s) |} s.

(** [sessionStartTime = Date.now(); startDurationTimer()] *)
Definition startClock (now : Z) (s : Interview) : Interview :=
  setVars {| apiKey := apiKey (vars s);
             conversationHistory := conversationHistory (vars s);
             questionCount := questionCount (vars s);
             correctionCount := correctionCount (vars s);
             sessionStartTime := Some now;
             durationInterval := true |} s.

Definition showToast (message type : text) (s : Interview) : Interview :=
  setPanels {| voiceTranscript := voiceTranscript (panels s);
               chatMessages := chatMessages (panels s);
               shownStats := shownStats (panels s);
               speechQueue := speechQueue (panels s);
               toasts := toasts (panels s) ++ [Ui.toast message type] |} s.

Definition addTranscript (entry : text) (s : Interview) : Interview :=
  setPanels {| voiceTranscript := voiceTranscript (panels s) ++ [entry];
               chatMessages := chatMessages (panels s);
               shownStats := shownStats (panels s);
               speechQueue := speechQueue (panels s);
               toasts := toasts (panels s) |} s.

Definition addChatMessage (markup sender : text) (s : Interview) : Interview :=
  setPanels {| voiceTranscript := voiceTranscript (panels s);
               chatMessages := chatMessages (panels s) ++ [(sender, markup)];
               shownStats := shownStats (panels s);
               speechQueue := speechQueue (panels s);
               toasts := toasts (panels s) |} s.

(** Both panels emptied ([innerHTML = '']). *)
Definition clearPanels (s : Interview) : Interview :=
  setPanels {| voiceTranscript := [];
               chatMessages := [];
               shownStats := shownStats (panels s);
               speechQueue := speechQueue (panels s);
               toasts := toasts (panels s) |} s.

(** [speechSynthesis.cancel()] empties the queue before the new utterance
    is put on it. *)
Definition speakText (utterance : text) (s : Interview) : Interview :=
  if speechSynthesis s then
    setPanels {| voiceTranscript := voiceTranscript (panels s);
                 chatMessages := chatMessages (panels s);
                 shownStats := shownStats (panels s);
                 speechQueue := [utterance];
                 toasts := toasts (panels s) |} s
  else s.

Definition updateStats (s : Interview) : Interview :=
  setPanels {| voiceTranscript := voiceTranscript (panels s);
               chatMessages := chatMessages (panels s);
               shownStats := (questionCount (vars s), correctionCount (vars s));
               speechQueue := speechQueue (panels s);
               toasts := toasts (panels s) |} s.

(** A value put into a string: [undefined] reads as its name. *)
Definition toText (v : option text) : text :=
  match v with Some t => t | None => "undefined" end.

Definition apology : text :=
  "I apologize, but I encountered an error. Could you please repeat that?".

(** The body [callGeminiAPI] posts, built before it waits. *)
Definition callGeminiAPI_request (p : text) (s : Interview) : Request :=
  {| api_key := apiKey (vars s); prompt := p;
     history := conversationHistory (vars s) |}.

(** What [callGeminiAPI] does once the call has come back: the value it
    returns, after the toast of the failure cases. *)
Definition callGeminiAPI_result (o : FetchOutcome) (s : Interview)
  : Interview * option text :=
  match o with
  | Rejected message =>
      (showToast ("API call failed: " ++ message) "error" s, Some apology)
  | Replied false error _ =>
      let shown :=
        match error with
        | Some e => orElse e "Unknown error"
        | None => "Unknown error" : text
        end in
      (showToast ("API error: " ++ shown) "error" s, Some apology)
  | Replied true _ response => (s, response)
  end.

(** The reply goes to the surface that is displayed. *)
Definition route (response : option text) (s : Interview) : Interview :=
  if negb (bool_decide (voiceModeDisplay (layout s) = ("none" : text))) then
    speakText (toText response)
      (addTranscript ("Interviewer: " ++ toText response) s)
  else
    addChatMessage
      ("<div class=" ++ [DQ] ++ "message-content" ++ [DQ] ++ ">"
         ++ toText response ++ "</div>")
      "ai" s.

Definition greetingPrompt (s : Interview) : text :=
  "You are an expert interview coach. Start a " ++ interviewType (form s)
    ++ " interview at " ++ difficulty (form s) ++ " level." ++ [LF]
    ++ "    Greet the candidate warmly and ask your first question. "
    ++ "Keep your responses natural and conversational.".

(** [sendInitialGreeting] up to its [await]. *)
Definition sendInitialGreeting_send (s : Interview) : Interview * Request :=
  (s, callGeminiAPI_request (greetingPrompt s) s).

(** [sendInitialGreeting] from its [await] on. *)
Definition sendInitialGreeting_receive (o : FetchOutcome) (s : Interview)
  : Interview :=
  let '(s1, response) := callGeminiAPI_result o s in
  let s2 := route response s1 in
  updateStats (setQuestionCount (questionCount (vars s2) + 1) s2).

Definition line (msg : Turn) : text :=
  roleName (role msg) ++ ": " ++ toText (content msg).

Definition exchangePrompt (userMessage : text) (s : Interview) : text :=
  "You are an expert interview coach conducting a " ++ interviewType (form s)
    ++ " interview at " ++ difficulty (form s) ++ " level." ++ [LF]
    ++ "    " ++ [LF]
    ++ "Previous conversation:" ++ [LF]
    ++ join [LF] (map line (slice (conversationHistory (vars s)) (-5) None)) ++ [LF]
    ++ [LF]
    ++ "The candidate just said: " ++ [DQ] ++ userMessage ++ [DQ] ++ [LF]
    ++ [LF]
    ++ "Analyze their response and:" ++ [LF]
    ++ "1. If there are issues, provide a brief correction starting with "
    ++ [DQ] ++ "Correction: " ++ [DQ] ++ [LF]
    ++ "2. Provide encouragement if tone is good" ++ [LF]
    ++ "3. Ask your next question" ++ [LF]
    ++ [LF]
    ++ "Keep responses natural and conversational.".

(** [processUserResponse] up to its [await]. *)
Definition processUserResponse_send (userMessage : text) (s : Interview)
  : Interview * Request :=
  let s1 :=
    setHistory (conversationHistory (vars s)
                  ++ [{| role := user; content := Some userMessage |}]) s in
  (s1, callGeminiAPI_request (exchangePrompt userMessage s1) s1).

Definition hasCorrection (response : text) : bool :=
  includes (toLowerCase response) "correction:".

(** [processUserResponse] from its [await] on.  [toLowerCase] of
    [undefined] raises a [TypeError]. *)
Definition processUserResponse_receive (o : FetchOutcome) (s : Interview)
  : Completion Interview :=
  let '(s1, response) := callGeminiAPI_result o s in
  let s2 :=
    setHistory (conversationHistory (vars s1)
                  ++ [{| role := assistant; content := response |}]) s1 in
  match response with
  | None => Threw s2
  | Some r =>
      let s3 :=
        if hasCorrection r
        then setCorrectionCount (correctionCount (vars s2) + 1) s2
        else s2 in
      let s4 := route response s3 in
      Returned (updateStats (setQuestionCount (questionCount (vars s4) + 1) s4))
  end.

(** One exchange turn that nothing interrupts. *)
Definition processUserResponse (userMessage : text) (o : FetchOutcome)
           (s : Interview) : Completion Interview :=
  processUserResponse_receive o (processUserResponse_send userMessage s).1.

Definition showScreen (screenId : text) (s : Interview) : Interview :=
  setPage (Navigator.showScreen screenId (page s)) s.

(** [startInterview], which runs [sendInitialGreeting] up to its [await]
    before it sets the mode up.  No request leaves without an API key. *)
Definition startInterview (now : Z) (s : Interview)
  : Interview * option Request :=
  if negb (truthy (apiKey (vars s))) then
    (showScreen "apiSetup"
       (showToast "Please configure API key first" "error" s), None)
  else
    let s1 :=
      setLayout {| setupDisplay := "none"; containerDisplay := "block";
                   voiceModeDisplay := voiceModeDisplay (layout s);
                   chatModeDisplay := chatModeDisplay (layout s) |} s in
    let s2 := startClock now s1 in
    let s3 := setHistory [] (setCorrectionCount 0 (setQuestionCount 0 s2)) in
    let s4 := updateStats (clearPanels s3) in
    let '(s5, request) := sendInitialGreeting_send s4 in
    let s6 :=
      if bool_decide (practiceMode (form s5) = ("voice" : text)) then
        setLayout {| setupDisplay := setupDisplay (layout s5);
                     containerDisplay := containerDisplay (layout s5);
                     voiceModeDisplay := "flex"; chatModeDisplay := "none" |} s5
      else
        setLayout {| setupDisplay := setupDisplay (layout s5);
                     containerDisplay := containerDisplay (layout s5);
                     voiceModeDisplay := "none"; chatModeDisplay := "block" |} s5 in
    (s6, Some request).

(** [startNewInterview], up to the [await] of the greeting. *)
Definition startNewInterview (now : Z) (s : Interview)
  : Interview * Request :=
  let s1 := setCorrectionCount 0 (setQuestionCount 0 (setHistory [] s)) in
  let s2 :=
    setVars {| apiKey := apiKey (vars s1);
               conversationHistory := conversationHistory (vars s1);
               questionCount := questionCount (vars s1);
               correctionCount := correctionCount (vars s1);
               sessionStartTime := Some now;
               durationInterval := durationInterval (vars s1) |} s1 in
  sendInitialGreeting_send (clearPanels (updateStats s2)).

(** The steps of the loop, each running from one [await] to the next. *)
Inductive Step : Type :=
| StartInterview (now : Z)
| StartNewInterview (now : Z)
| GreetingArrives (o : FetchOutcome)
| UserSpeaks (userMessage : text)
| ReplyArrives (o : FetchOutcome).

Definition stateOf {A : Type} (c : Completion A) : A :=
  match c with Returned a => a | Threw a => a end.

Definition step (s : Interview) (e : Step) : Interview :=
  match e with
  | StartInterview now => (startInterview now s).1
  | StartNewInterview now => (startNewInterview now s).1
  | GreetingArrives o => sendInitialGreeting_receive o s
  | UserSpeaks m => (processUserResponse_send m s).1
  | ReplyArrives o => stateOf (processUserResponse_receive o s)
  end.

Definition run (s : Interview) (l : list Step) : Interview :=
  fold_left step l s.

(** Exchange turns one after the other, each completed before the next
    begins; the first that throws ends the sequence. *)
Fixpoint exchangeTurns (l : list (text * FetchOutcome)) (s : Interview)
  : Completion Interview :=
  match l with
  | [] => Returned s
  | (m, o) :: l' =>
      match processUserResponse m o s with
      | Returned s' => exchangeTurns l' s'
      | Threw s' => Threw s'
      end
  end.

(** The call failed: it was rejected or the status was not a success. *)
Definition failed (o : FetchOutcome) : bool :=
  match o with
  | Rejected _ => true
  | Replied ok _ _ => negb ok
  end.

(** The call hands a text back to the loop. *)
Definition handsText (o : FetchOutcome) : bool :=
  match o with
  | Replied true _ None => false
  | _ => true
  end.

(** The assistant turns of a history that carry a correction. *)
Definition corrections (h : list Turn) : nat :=
  length (List.filter
            (fun t =>
               match role t, content t with
               | assistant, Some r => hasCorrection r
               | _, _ => false
               end) h).

(** [r] contains [marker], the case of letters set aside. *)
Definition containsIgnoringCase (r marker : text) : Prop :=
  exists before w rest,
    r = before ++ w ++ rest /\ toLowerCase w = toLowerCase marker.

(** The last [n] entries of a list, oldest first. *)
Definition lastEntries {A : Type} (n : nat) (l : list A) : list A :=
  rev (take n (rev l)).

(** What [callGeminiAPI] returns for an outcome: the apology for a failed
    call, else the [response] field of the body. *)
Definition replyText (o : FetchOutcome) : option text :=
  match o with
  | Replied true _ response => response
  | _ => Some apology
  end.

(** The two assistant-side entries a completed turn leaves on the history. *)
Definition exchanged (t : text * FetchOutcome) : list Turn :=
  [ {| role := user; content := Some t.1 |};
    {| role := assistant; content := replyText t.2 |} ].

(** The statistics shown are the counters. *)
Definition statsShown (s : Interview) : Prop :=
  shownStats (panels s) = (questionCount (vars s), correctionCount (vars s)).

(** The steps that begin an interview. *)
Definition isStart (e : Step) : bool :=
  match e with
  | StartInterview _ | StartNewInterview _ => true
  | _ => false
  end.

Definition setApiKey (k : text) (s : Interview) : Interview :=
  setVars {| apiKey := k;
             conversationHistory := conversationHistory (vars s);
             questionCount := questionCount (vars s);
             correctionCount := correctionCount (vars s);
             sessionStartTime := sessionStartTime (vars s);
             durationInterval := durationInterval (vars s) |} s.

(** [handleStartSession] on the value of the [apiKey] input.  [keyAccepted]
    is what [testApiKey] returns: the success flag of the status of
    [/api/test-key], [false] when the call raised.  The second component is
    the key posted to the test, if the test was called. *)
Definition handleStartSession (value : text) (keyAccepted : bool)
           (s : Interview) : Interview * option text :=
  let s1 := setApiKey (trim value) s in
  if negb (truthy (apiKey (vars s1))) then
    (showToast "Please enter your API key" "error" s1, None)
  else if negb keyAccepted then
    (showToast "Invalid API key" "error" s1, Some (apiKey (vars s1)))
  else
    (showToast "API key configured!" "success"
       (showScreen "studentDashboard" s1), Some (apiKey (vars s1))).

(** The markup [addChatMessage] builds around a text. *)
Definition chatMarkup (t : text) : text :=
  "<div class=" ++ [DQ] ++ "message-content" ++ [DQ] ++ ">" ++ t ++ "</div>".

(** [sendChatMessage] on the value of the chat input, up to the [await] of
    [processUserResponse]: the state, the value left in the input, and the
    request posted, if any. *)
Definition sendChatMessage (value : text) (s : Interview)
  : Interview * text * option Request :=
  let message := trim value in
  if negb (truthy message) then (s, value, None)
  else
    let '(s1, request) :=
      processUserResponse_send message
        (addChatMessage (chatMarkup message) "user" s) in
    (s1, [], Some request).

End Exchange.

(** *** Paper helpers of the teacher dashboard *)
Module Paper.
Import Js.

(** The object literal of [escapeHtml]. *)
Definition entities : list (ascii * text) :=
  [ ("&"%char, "&amp;" : text); ("<"%char, "&lt;" : text);
    (">"%char, "&gt;" : text); (DQ, "&quot;" : text);
    ("'"%char, "&#39;" : text); ("/"%char, "&#47;" : text);
    ("`"%char, "&#96;" : text); ("="%char, "&#61;" : text) ].

Fixpoint property (c : ascii) (o : list (ascii * text)) : option text :=
  match o with
  | [] => None
  | (k, v) :: o' => if Ascii.eqb k c then Some v else property c o'
  end.

(** The character class of the regular expression of [escapeHtml]. *)
Definition classChars : text := "&<" ++ [DQ] ++ "'`=/".

Definition inClass (c : ascii) : bool := existsb (Ascii.eqb c) classChars.

(** A missing property reads as [undefined]. *)
Definition toText (v : option text) : text :=
  match v with Some s => s | None => "undefined" end.

Definition escapeHtml (unsafe : text) : text :=
  replaceClass inClass (fun s => toText (property s entities)) unsafe.

Record Question : Type := { qid : nat; q_text : text }.

(** What [useGeneratedPaper] reads and writes: two properties of [window],
    the value of the [numQuestions] input and the toast. *)
Record Window : Type := {
  _generated_papers : option (gmap text text);
  _selected_generated_questions : option (list Question);
  numQuestions : text;
  toasts : list Ui.Toast
}.

Definition showToast (message type : text) (w : Window) : Window :=
  {| _generated_papers := _generated_papers w;
     _selected_generated_questions := _selected_generated_questions w;
     numQuestions := numQuestions w;
     toasts := toasts w ++ [Ui.toast message type] |}.

(** The two markers of the first split, with the [i] flag. *)
Definition paperMarker (s : text) : option nat :=
  if startsWith_ci s "===QUESTION PAPER===" then Some 20
  else if startsWith_ci s "===END PAPER===" then Some 15
  else None.

(** The separators of the second split: a blank line, a line break
    followed by digits and a dot, or a line break followed by a bracket. *)
Definition questionBreak (s : text) : option nat :=
  match s with
  | c :: rest =>
      if Ascii.eqb c LF then
        match rest with
        | d :: rest' =>
            if Ascii.eqb d LF then Some 2
            else
              let digits := takeWhile isDigit rest in
              match digits, drop (length digits) rest with
              | _ :: _, dot :: _ =>
                  if Ascii.eqb dot "." then Some (length digits + 2)
                  else None
              | _, _ => if Ascii.eqb d "[" then Some 2 else None
              end
        | [] => None
        end
      else None
  | [] => None
  end.

Definition parseQuestions (content numQuestionsValue : text) : list text :=
  let parts :=
    List.filter (fun p => truthy (trim p)) (split paperMarker content) in
  let questionsText := orElse (match parts with p :: _ => p | [] => [] end) content in
  slice
    (List.filter (fun q => 20 <? length q)
       (map trim (split questionBreak questionsText)))
    0 (Some (parseInt10 (orElse numQuestionsValue "10"))).

Definition useGeneratedPaper (paperId : text) (w : Window) : Window :=
  let content :=
    match _generated_papers w with
    | Some papers => papers !! paperId
    | None => None
    end in
  match content with
  | Some content =>
      if truthy content then
        let questions := parseQuestions content (numQuestions w) in
        (* the dash of the message, outside Latin-1, is written as a hyphen *)
        showToast
          "Generated paper selected - create assignment to assign it to students"
          "info"
          {| _generated_papers := _generated_papers w;
             _selected_generated_questions :=
               Some (imap (fun i q => {| qid := i + 1; q_text := q |}) questions);
             numQuestions := numQuestions w;
             toasts := toasts w |}
      else showToast "Paper not found" "error" w
  | None => showToast "Paper not found" "error" w
  end.

(** What the escaping is to do with one character: the seven characters
    of the class go to their entity, any other stays. *)
Definition escaped (c : ascii) : text :=
  if Ascii.eqb c "&" then "&amp;"
  else if Ascii.eqb c "<" then "&lt;"
  else if Ascii.eqb c DQ then "&quot;"
  else if Ascii.eqb c "'" then "&#39;"
  else if Ascii.eqb c "`" then "&#96;"
  else if Ascii.eqb c "=" then "&#61;"
  else if Ascii.eqb c "/" then "&#47;"
  else [c].

(** A text without white space at either end. *)
Definition trimmed (s : text) : Prop :=
  (forall c, head s = Some c -> isWhiteSpace c = false) /\
  (forall c, last s = Some c -> isWhiteSpace c = false).

End Paper.

(** *** Paper generation and assignment creation of the teacher dashboard *)
Module Teacher.
Import Js.

(** The values of the assignment form. *)
Record Form : Type := {
  assignTitle : text;
  assignDescription : text;
  assignDifficulty : text;
  assignDeadline : text;
  studentList : text;
  checkedTypes : list text      (* values of the checked question types *)
}.

Record State : Type := {
  window : Paper.Window;                (* with the toast of the page *)
  _teacher_session_id : option text;
  authToken : option text;
  apiKey : text;
  form : Form;
  generatedPapersList : list (text * text);
                       (* previews, newest first: escaped content, paper id *)
  paperLoads : nat     (* how often [loadTeacherPapers] was called *)
}.

Definition setWindow (w : Paper.Window) (t : State) : State :=
  {| window := w; _teacher_session_id := _teacher_session_id t;
     authToken := authToken t; apiKey := apiKey t; form := form t;
     generatedPapersList := generatedPapersList t;
     paperLoads := paperLoads t |}.

Definition showToast (message type : text) (t : State) : State :=
  setWindow (Paper.showToast message type (window t)) t.

(** What a call comes back with: it raised (the [fetch], the parsing of
    the body, or what the handler does with the body), or a body arrived. *)
Inductive UploadOutcome : Type :=
| UploadRaised (message : text)
| UploadReplied (ok : bool) (error : option text) (session_id : option text).

(** [uploadTeacherSession]; the flags tell which files were chosen.  The
    second component tells whether the upload was posted. *)
Definition uploadTeacherSession (syllabusChosen pyqChosen : bool)
           (o : UploadOutcome) (t : State) : State * bool :=
  if negb syllabusChosen && negb pyqChosen then
    (showToast "Please choose at least one PDF to upload" "error" t, false)
  else
    match o with
    | UploadRaised message =>
        (showToast ("Upload error: " ++ message) "error" t, true)
    | UploadReplied false error _ =>
        (showToast (orDefault error "Upload failed") "error" t, true)
    | UploadReplied true _ session_id =>
        (showToast "Files uploaded, teacher session started" "success"
           {| window := window t; _teacher_session_id := session_id;
              authToken := authToken t; apiKey := apiKey t; form := form t;
              generatedPapersList := generatedPapersList t;
              paperLoads := paperLoads t |}, true)
    end.

(** The body posted to [/api/teacher/generate-paper]. *)
Record GenerateRequest : Type := {
  g_session_id : text;
  g_num_questions : num;
  g_difficulty : text;
  g_question_types : list text;
  g_api_key : text
}.

(** A success body carries [paper_id] and [content] as strings; without
    them the handler raises. *)
Inductive GenerateOutcome : Type :=
| GenerateRaised (message : text)
| GenerateReplied (ok : bool) (error : option text) (paper_id content : text).

Definition storePaper (id content : text) (w : Paper.Window) : Paper.Window :=
  {| Paper._generated_papers :=
       Some (<[id := content]>
               (match Paper._generated_papers w with
                | Some papers => papers
                | None => ∅
                end));
     Paper._selected_generated_questions := Paper._selected_generated_questions w;
     Paper.numQuestions := Paper.numQuestions w;
     Paper.toasts := Paper.toasts w |}.

Definition generatePaperFromSession (o : GenerateOutcome) (t : State)
  : State * option GenerateRequest :=
  match _teacher_session_id t with
  | None =>
      (showToast "Please upload content first (Upload & Start Teacher Session)"
         "error" t, None)
  | Some sessionId =>
      if negb (truthy sessionId) then
        (showToast "Please upload content first (Upload & Start Teacher Session)"
           "error" t, None)
      else
        let request :=
          {| g_session_id := sessionId;
             g_num_questions :=
               parseInt10 (orElse (Paper.numQuestions (window t)) "10");
             g_difficulty := orElse (assignDifficulty (form t)) "medium";
             g_question_types := checkedTypes (form t);
             g_api_key := apiKey t |} in
        (match o with
         | GenerateRaised message =>
             showToast ("Generation error: " ++ message) "error" t
         | GenerateReplied false error _ _ =>
             showToast (orDefault error "Paper generation failed") "error" t
         | GenerateReplied true _ id content =>
             showToast "Paper generated successfully" "success"
               {| window := storePaper id content (window t);
                  _teacher_session_id := _teacher_session_id t;
                  authToken := authToken t; apiKey := apiKey t; form := form t;
                  generatedPapersList :=
                    (Paper.escapeHtml content, id) :: generatedPapersList t;
                  paperLoads := paperLoads t |}
         end, Some request)
  end.

(** The click on the button of a preview. *)
Definition useGeneratedPaper (paperId : text) (t : State) : State :=
  setWindow (Paper.useGeneratedPaper paperId (window t)) t.

(** The separator of [split(',')]. *)
Definition comma (s : text) : option nat :=
  if startsWith s "," then Some 1 else None.

(** The body posted to [/api/teacher/create-assignment], with the
    [Authorization] header. *)
Record AssignmentRequest : Type := {
  authorization : text;
  student_ids : list text;
  title : text;
  description : text;
  questions : list Paper.Question;
  difficulty : text;
  deadline : text
}.

Inductive CreateOutcome : Type :=
| CreateRaised (message : text)
| CreateReplied (ok : bool) (error : option text).

Definition studentUsernames (raw : text) : list text :=
  let studentListRaw := trim raw in
  if truthy studentListRaw
  then List.filter truthy (map trim (split comma studentListRaw))
  else [].

(** An array, also an empty one, is truthy: the placeholder stands in only
    for a selection that was never made. *)
Definition assignmentQuestions (w : Paper.Window) : list Paper.Question :=
  match Paper._selected_generated_questions w with
  | Some selected => selected
  | None => [ {| Paper.qid := 1; Paper.q_text := "Write your answer here" |} ]
  end.

Definition handleCreateAssignment (o : CreateOutcome) (t : State)
  : State * AssignmentRequest :=
  let request :=
    {| authorization :=
         "Bearer " ++ match authToken t with Some k => k | None => "null" : text end;
       student_ids := studentUsernames (studentList (form t));
       title := assignTitle (form t);
       description := assignDescription (form t);
       questions := assignmentQuestions (window t);
       difficulty := assignDifficulty (form t);
       deadline := assignDeadline (form t) |} in
  (match o with
   | CreateRaised message =>
       showToast ("Error creating assignment: " ++ message) "error" t
   | CreateReplied false error =>
       showToast (orDefault error "Create assignment failed") "error" t
   | CreateReplied true _ =>
       let t1 := showToast "Assignment created and assigned" "success" t in
       {| window := window t1; _teacher_session_id := _teacher_session_id t1;
          authToken := authToken t1; apiKey := apiKey t1; form := form t1;
          generatedPapersList := generatedPapersList t1;
          paperLoads := paperLoads t1 + 1 |}
   end, request).

End Teacher.

(** *** Recording controller of the learning session *)
Module Learning.

(** The browser side, as the Media Capture and MediaStream Recording APIs
    have it.  Every stream that [getUserMedia] has handed out is listed,
    with [true] while its track is live; a stream is known by its position
    in that list.  A recorder is [recording] from [start] to [stop]; what
    [stop] does to a recorder that is not recording differs between
    browsers and is left out of the model. *)
Record Recorder : Type := { source : nat; recording : bool }.


Record Button : Type := { classList : list text; label : text }.

Record State : Type := {
  isLearningRecording : bool;
  learningMediaRecorder : option Recorder;
  learningAudioChunks : list text;
  mediaStream : option nat;
  streams : list bool;
  learningMicBtn : Button;
  savedAudio : list (list text);   (* the blobs handed to [saveLearningAudio] *)
  toasts : list Ui.Toast
}.










End Learning.

(** *** A page and a session to run the functions on *)
Module Sample.
Import Js.

Definition element (id : string) (classes : list string)
           (section : option string) (parent : option nat)
  : Navigator.Element :=
  {| Navigator.el_id := id;
     Navigator.classList := map String.list_ascii_of_string classes;
     Navigator.data_section := option_map String.list_ascii_of_string section;
     Navigator.parentElement := parent |}.

(** The three screens, with the two dashboards and their sections; the
    teacher is logged in. *)
Definition page : Navigator.Document :=
  {| Navigator.elements :=
       [ element "authScreen" ["screen"] None None;
         element "studentDashboard" ["screen"; "dashboard-container"] None None;
         element "" ["nav-btn"; "active"] (Some "assignments") (Some 1);
         element "assignmentsSection" ["content-section"; "active"] None (Some 1);
         element "assignmentsList" [] None (Some 3);
         element "teacherDashboard" ["screen"; "dashboard-container"; "active"] None None;
         element "" ["nav-btn"; "active"] (Some "papers") (Some 5);
         element "" ["nav-btn"] (Some "grade") (Some 5);
         element "papersSection" ["content-section"; "active"] None (Some 5);
         element "papersList" [] None (Some 8);
         element "gradeSection" ["content-section"] None (Some 5) ];
     Navigator.scroll := (0%Z, 120%Z) |}.

Definition interview : Exchange.Interview :=
  {| Exchange.vars :=
       {| Exchange.apiKey := "key";
          Exchange.conversationHistory := [];
          Exchange.questionCount := 0;
          Exchange.correctionCount := 0;
          Exchange.sessionStartTime := None;
          Exchange.durationInterval := false |};
     Exchange.form :=
       {| Exchange.interviewType := "technical";
          Exchange.difficulty := "medium";
          Exchange.practiceMode := "voice" |};
     Exchange.layout :=
       {| Exchange.setupDisplay := "";
          Exchange.containerDisplay := "none";
          Exchange.voiceModeDisplay := "";
          Exchange.chatModeDisplay := "" |};
     Exchange.panels :=
       {| Exchange.voiceTranscript := [];
          Exchange.chatMessages := [];
          Exchange.shownStats := (0, 0);
          Exchange.speechQueue := [];
          Exchange.toasts := [] |};
     Exchange.speechSynthesis := true;
     Exchange.page := page |}.

(** A generated paper of two questions. *)
Definition paper : text :=
  "===QUESTION PAPER===" ++ [LF]
    ++ "1. What is the capital of France?" ++ [LF]
    ++ "2. Explain photosynthesis in detail." ++ [LF]
    ++ "===END PAPER===".

(** The window after that paper was generated, with [-1] typed into the
    [numQuestions] input. *)
Definition window : Paper.Window :=
  {| Paper._generated_papers := Some {[ ("p1" : text) := paper ]};
     Paper._selected_generated_questions := None;
     Paper.numQuestions := "-1";
     Paper.toasts := [] |}.

(** The controller at rest, and while it records. *)
Definition idleRecorder : Recording.Recorder :=
  {| Recording.isRecording := false;
     Recording.recognition :=
       Some {| Recording.listening := false; Recording.captures := 0 |};
     Recording.recordBtn :=
       {| Recording.classList := [("record-btn" : text)];
          Recording.btn_text := "Press to Speak" |};
     Recording.toasts := [] |}.

Definition activeRecorder : Recording.Recorder :=
  Recording.startRecording idleRecorder.

(** A teacher who is logged in and has saved an API key. *)
Definition store : Session.Store :=
  {| Session.authToken := Some ("token-1" : text);
     Session.currentUser :=
       Some {| Session.user_id := 7; Session.username := "ada";
               Session.user_type := "teacher" |};
     Session.apiKey := "key";
     Session.localStorage :=
       {[ ("authToken" : text) := ("token-1" : text);
          ("apiKey" : text) := ("key" : text) ]};
     Session.page := page;
     Session.toasts := [] |}.

(** The teacher dashboard before anything was uploaded. *)
Definition teacher : Teacher.State :=
  {| Teacher.window :=
       {| Paper._generated_papers := None;
          Paper._selected_generated_questions := None;
          Paper.numQuestions := "";
          Paper.toasts := [] |};
     Teacher._teacher_session_id := None;
     Teacher.authToken := Some ("token-1" : text);
     Teacher.apiKey := "key";
     Teacher.form :=
       {| Teacher.assignTitle := "Biology";
          Teacher.assignDescription := "";
          Teacher.assignDifficulty := "";
          Teacher.assignDeadline := "2026-12-01";
          Teacher.studentList := " ada , ,grace,  ";
          Teacher.checkedTypes := [("mcq" : text)] |};
     Teacher.generatedPapersList := [];
     Teacher.paperLoads := 0 |}.


(** A session with the chat panel displayed. *)
Definition inChat (s : Exchange.Interview) : Exchange.Interview :=
  Exchange.setLayout
    {| Exchange.setupDisplay := "none";
       Exchange.containerDisplay := "block";
       Exchange.voiceModeDisplay := "none";
       Exchange.chatModeDisplay := "block" |} s.

Definition reply (t : string) : Exchange.FetchOutcome :=
  Exchange.Replied true None (Some (t : text)).

End Sample.

(** ** Part II: properties *)

(** *** Facts about the built-ins *)
Section JsProps.
Import Js.

Lemma startsWith_spec (s p : text) :
  startsWith s p = true <-> exists rest, s = p ++ rest.
Proof.
  revert s; induction p as [|a p IH]; intros s; simpl.
  - split; [intros _; exists s; reflexivity | reflexivity].
  - destruct s as [|b s].
    + split; [discriminate | intros [rest H]; discriminate].
    + rewrite andb_true_iff, Ascii.eqb_eq, IH. split.
      * intros [-> [rest ->]]. exists rest. reflexivity.
      * intros [rest H]. injection H as -> ->. split; [reflexivity | eauto].
Qed.

Lemma includes_spec (s p : text) :
  includes s p = true <-> exists before rest, s = before ++ p ++ rest.
Proof.
  induction s as [|c s IH]; simpl; rewrite orb_true_iff, startsWith_spec.
  - split.
    + intros [[rest H] | H]; [|discriminate]. exists [], rest. exact H.
    + intros (before & rest & H). left.
      destruct before; [exists rest; exact H | discriminate].
  - rewrite IH. split.
    + intros [[rest H] | (before & rest & H)].
      * exists [], rest. exact H.
      * exists (c :: before), rest. simpl. congruence.
    + intros (before & rest & H). destruct before as [|b before].
      * left. exists rest. exact H.
      * right. injection H as -> ->. eauto.
Qed.

Lemma slice_last5 {A : Type} (l : list A) :
  slice l (-5) None = Exchange.lastEntries 5 l.
Proof.
  unfold slice, relIndex, Exchange.lastEntries. simpl.
  rewrite firstn_rev, rev_involutive.
  replace (Z.to_nat (Z.max (Z.of_nat (length l) + -5) 0)) with (length l - 5)
    by lia.
  apply take_ge. rewrite length_drop. lia.
Qed.

Lemma lastEntries_suffix {A : Type} (n : nat) (l : list A) :
  exists older, l = older ++ Exchange.lastEntries n l /\
                length (Exchange.lastEntries n l) = Nat.min n (length l).
Proof.
  unfold Exchange.lastEntries. rewrite firstn_rev, rev_involutive.
  exists (take (length l - n) l). split.
  - symmetry. apply take_drop.
  - rewrite length_drop. lia.
Qed.

End JsProps.

(** *** Class lists *)
Section UiProps.

Lemma classRemove_twice (c : text) (l : list text) :
  Ui.classRemove c (Ui.classRemove c l) = Ui.classRemove c l.
Proof.
  unfold Ui.classRemove. induction l as [|k l IH]; simpl; [reflexivity|].
  destruct (negb (bool_decide (k = c))) eqn:Hk; simpl; rewrite ?Hk, IH;
    reflexivity.
Qed.

Lemma classRemove_absent (c : text) (l : list text) :
  Ui.classContains c (Ui.classRemove c l) = false.
Proof.
  unfold Ui.classContains, Ui.classRemove.
  apply bool_decide_eq_false. rewrite list_elem_of_In, filter_In.
  intros [_ H]. apply negb_true_iff, bool_decide_eq_false in H.
  apply H. reflexivity.
Qed.

Lemma classContains_remove_other (c c' : text) (l : list text) :
  c <> c' -> Ui.classContains c (Ui.classRemove c' l) = Ui.classContains c l.
Proof.
  intros Hne. unfold Ui.classContains, Ui.classRemove.
  apply bool_decide_ext. rewrite !list_elem_of_In, filter_In.
  split; [tauto|]. intros H. split; [exact H|].
  apply negb_true_iff, bool_decide_eq_false. exact Hne.
Qed.

Lemma classContains_add (c : text) (l : list text) :
  Ui.classContains c (Ui.classAdd c l) = true.
Proof.
  unfold Ui.classAdd. destruct (Ui.classContains c l) eqn:H; [exact H|].
  unfold Ui.classContains. apply bool_decide_eq_true, elem_of_app.
  right. apply list_elem_of_singleton. reflexivity.
Qed.

Lemma classContains_add_kept (c c' : text) (l : list text) :
  Ui.classContains c l = true -> Ui.classContains c (Ui.classAdd c' l) = true.
Proof.
  intros H. unfold Ui.classAdd. destruct (Ui.classContains c' l); [exact H|].
  unfold Ui.classContains in *. apply bool_decide_eq_true in H.
  apply bool_decide_eq_true, elem_of_app. left. exact H.
Qed.

Lemma classContains_add_other (c c' : text) (l : list text) :
  c <> c' -> Ui.classContains c (Ui.classAdd c' l) = Ui.classContains c l.
Proof.
  intros Hne. unfold Ui.classAdd. destruct (Ui.classContains c' l);
    [reflexivity|].
  unfold Ui.classContains. apply bool_decide_ext. rewrite elem_of_app.
  split; [|auto]. intros [H|H]; [exact H|].
  apply list_elem_of_singleton in H. contradiction.
Qed.

End UiProps.

(** *** The exchange loop *)
Section ExchangeProps.
Import Js Exchange.

Ltac unfold_setters :=
  unfold updateStats, setQuestionCount, setCorrectionCount, setHistory,
    startClock, clearPanels, showScreen, showToast, speakText,
    addTranscript, addChatMessage, setVars, setLayout, setPanels, setPage
    in *.

Lemma vars_route (r : option text) (s : Interview) :
  vars (route r s) = vars s.
Proof.
  unfold route. destruct (negb _); unfold_setters; simpl;
    [destruct (speechSynthesis s)|]; reflexivity.
Qed.

Lemma panels_toasts_route (r : option text) (s : Interview) :
  toasts (panels (route r s)) = toasts (panels s).
Proof.
  unfold route. destruct (negb _); unfold_setters; simpl;
    [destruct (speechSynthesis s)|]; reflexivity.
Qed.

Lemma vars_callGeminiAPI_result (o : FetchOutcome) (s : Interview) :
  vars (callGeminiAPI_result o s).1 = vars s.
Proof. destruct o as [m | [] e r]; reflexivity. Qed.

Lemma callGeminiAPI_result_failed (o : FetchOutcome) (s : Interview) :
  failed o = true ->
  (callGeminiAPI_result o s).2 = Some apology /\
  exists message,
    toasts (panels (callGeminiAPI_result o s).1)
    = toasts (panels s) ++ [Ui.toast message "error"].
Proof.
  destruct o as [m | [] e r]; simpl; intros H; try discriminate;
    (split; [reflexivity | eexists; reflexivity]).
Qed.

Lemma callGeminiAPI_result_text (o : FetchOutcome) (s : Interview) :
  handsText o = true -> exists r, (callGeminiAPI_result o s).2 = Some r.
Proof.
  destruct o as [m | [] e [r|]]; simpl; intros H; try discriminate; eauto.
Qed.

Lemma corrections_app (h : list Turn) (t : Turn) :
  corrections (h ++ [t]) =
  corrections h +
  match role t, content t with
  | assistant, Some r => if hasCorrection r then 1 else 0
  | _, _ => 0
  end.
Proof.
  unfold corrections. rewrite List.filter_app, length_app. simpl.
  destruct (role t), (content t) as [r|]; simpl; try reflexivity.
  destruct (hasCorrection r); reflexivity.
Qed.

(** What one completed turn does to the variables of the script. *)
Lemma processUserResponse_vars (m : text) (o : FetchOutcome) (s : Interview) (r : text) :
  (callGeminiAPI_result o (processUserResponse_send m s).1).2 = Some r ->
  exists s',
    processUserResponse m o s = Returned s' /\
    conversationHistory (vars s') =
      conversationHistory (vars s)
        ++ [ {| role := user; content := Some m |};
             {| role := assistant; content := Some r |} ] /\
    questionCount (vars s') = questionCount (vars s) + 1 /\
    correctionCount (vars s') =
      correctionCount (vars s) + (if hasCorrection r then 1 else 0) /\
    apiKey (vars s') = apiKey (vars s).
Proof.
  intros H. unfold processUserResponse, processUserResponse_receive.
  pose proof (vars_callGeminiAPI_result o (processUserResponse_send m s).1) as Hv.
  destruct (callGeminiAPI_result o (processUserResponse_send m s).1) as [s1 resp].
  simpl in H, Hv. subst resp. eexists. split; [reflexivity|].
  destruct (hasCorrection r); unfold_setters; simpl;
    rewrite vars_route; simpl; rewrite Hv; simpl;
    rewrite <- app_assoc; simpl; repeat split; lia.
Qed.

Lemma exchangeTurns_vars (turns : list (text * FetchOutcome)) (s : Interview) :
  forallb (fun t => handsText t.2) turns = true ->
  exists s',
    exchangeTurns turns s = Returned s' /\
    length (conversationHistory (vars s')) =
      length (conversationHistory (vars s)) + 2 * length turns /\
    questionCount (vars s') = questionCount (vars s) + length turns.
Proof.
  revert s. induction turns as [|[m o] turns IH]; intros s H; simpl in *.
  - exists s. repeat split; lia.
  - apply andb_true_iff in H as [Ho Hrest].
    destruct (callGeminiAPI_result_text o (processUserResponse_send m s).1 Ho)
      as [r Hr].
    destruct (processUserResponse_vars m o s r Hr)
      as (s1 & -> & Hh & Hq & _).
    destruct (IH s1 Hrest) as (s' & -> & Hh' & Hq').
    exists s'. split; [reflexivity|]. rewrite Hh', Hq', Hh, Hq, length_app.
    simpl. lia.
Qed.

Lemma startInterview_vars (now : Z) (s : Interview) :
  truthy (apiKey (vars s)) = true ->
  conversationHistory (vars (startInterview now s).1) = [] /\
  questionCount (vars (startInterview now s).1) = 0 /\
  correctionCount (vars (startInterview now s).1) = 0 /\
  sessionStartTime (vars (startInterview now s).1) = Some now /\
  exists request, (startInterview now s).2 = Some request.
Proof.
  intros H. unfold startInterview. rewrite H. simpl.
  destruct (bool_decide _); simpl; repeat split; eauto.
Qed.

Lemma sendInitialGreeting_receive_vars (o : FetchOutcome) (s : Interview) :
  conversationHistory (vars (sendInitialGreeting_receive o s)) =
    conversationHistory (vars s) /\
  questionCount (vars (sendInitialGreeting_receive o s)) =
    questionCount (vars s) + 1 /\
  correctionCount (vars (sendInitialGreeting_receive o s)) =
    correctionCount (vars s).
Proof.
  unfold sendInitialGreeting_receive.
  pose proof (vars_callGeminiAPI_result o s) as Hv.
  destruct (callGeminiAPI_result o s) as [s1 resp]. simpl in Hv.
  unfold_setters; simpl. rewrite vars_route, Hv. repeat split.
Qed.

(** C1, as the script has it: the greeting is shown (or spoken) and
    counted as a question, but it is not put on [conversationHistory].
    After [startInterview] with an API key and the arrival of the
    greeting, the history is empty, [questionCount] is 1 and
    [correctionCount] is 0; after [N] further completed exchange turns the
    history holds [2N] entries. *)
Theorem history_length_after_start
        (now : Z) (greeting : FetchOutcome)
        (turns : list (text * FetchOutcome)) (s : Interview) :
  truthy (apiKey (vars s)) = true ->
  forallb (fun t => handsText t.2) turns = true ->
  let started := sendInitialGreeting_receive greeting (startInterview now s).1 in
  conversationHistory (vars started) = [] /\
  questionCount (vars started) = 1 /\
  correctionCount (vars started) = 0 /\
  exists s',
    exchangeTurns turns started = Returned s' /\
    length (conversationHistory (vars s')) = 2 * length turns /\
    questionCount (vars s') = 1 + length turns.
Proof.
  intros Hkey Hturns started.
  destruct (startInterview_vars now s Hkey) as (Hh & Hq & Hc & _).
  destruct (sendInitialGreeting_receive_vars greeting (startInterview now s).1)
    as (Hh' & Hq' & Hc').
  fold started in Hh', Hq', Hc'. rewrite Hh in Hh'. rewrite Hq in Hq'.
  rewrite Hc in Hc'. repeat split; try assumption.
  destruct (exchangeTurns_vars turns started Hturns) as (s' & He & Hl & Hn).
  exists s'. rewrite Hl, Hn, Hh', Hq'. simpl. repeat split; try assumption; lia.
Qed.

Lemma history_length_after_start_witness :
  let started :=
    sendInitialGreeting_receive (Sample.reply "Hello, shall we begin?")
      (startInterview 1000 Sample.interview).1 in
  let turns :=
    [ ("I am ready" : text, Sample.reply "Great. Tell me about yourself.");
      ("I write compilers" : text, Rejected "Failed to fetch") ] in
  conversationHistory (vars started) = [] /\
  questionCount (vars started) = 1 /\
  correctionCount (vars started) = 0 /\
  exists s',
    exchangeTurns turns started = Returned s' /\
    length (conversationHistory (vars s')) = 2 * length turns /\
    questionCount (vars s') = 1 + length turns.
Proof.
  apply (history_length_after_start 1000
           (Sample.reply "Hello, shall we begin?")
           [ ("I am ready" : text, Sample.reply "Great. Tell me about yourself.");
             ("I write compilers" : text, Rejected "Failed to fetch") ]
           Sample.interview); reflexivity.
Defined.

(** C1 as stated fails: after the greeting of a fresh interview the
    history is not the one-element list with the greeting, and its length
    is not [2 * 0 + 1]. *)
Lemma greeting_not_in_history :
  let started :=
    sendInitialGreeting_receive (Sample.reply "Hello, shall we begin?")
      (startInterview 1000 Sample.interview).1 in
  conversationHistory (vars started)
    <> [ {| role := assistant; content := Some ("Hello, shall we begin?" : text) |} ] /\
  length (conversationHistory (vars started)) <> 2 * 0 + 1.
Proof. split; vm_compute; discriminate. Qed.

(** C2: when the remote call is rejected or answers with a status that is
    not a success, [processUserResponse] returns normally, having put the
    utterance and then exactly one assistant turn, the apology, on the
    history, raised [questionCount] by one, left [correctionCount] alone
    and shown an error toast. *)
Theorem processUserResponse_failure
        (userMessage : text) (o : FetchOutcome) (s : Interview) :
  failed o = true ->
  exists s',
    processUserResponse userMessage o s = Returned s' /\
    conversationHistory (vars s') =
      conversationHistory (vars s)
        ++ [ {| role := user; content := Some userMessage |};
             {| role := assistant; content := Some apology |} ] /\
    questionCount (vars s') = questionCount (vars s) + 1 /\
    correctionCount (vars s') = correctionCount (vars s) /\
    exists message,
      toasts (panels s') = toasts (panels s) ++ [Ui.toast message "error"].
Proof.
  intros Hfail.
  destruct (callGeminiAPI_result_failed o (processUserResponse_send userMessage s).1 Hfail)
    as (Hr & message & Ht).
  destruct (processUserResponse_vars userMessage o s apology Hr)
    as (s' & Hs' & Hh & Hq & Hc & _).
  exists s'. repeat split; try assumption.
  - rewrite Hc. replace (hasCorrection apology) with false by reflexivity. lia.
  - exists message. revert Hs'.
    unfold processUserResponse, processUserResponse_receive.
    destruct (callGeminiAPI_result o (processUserResponse_send userMessage s).1)
      as [s1 resp].
    simpl in Hr, Ht. subst resp. intros [= <-].
    replace (hasCorrection apology) with false by reflexivity.
    unfold_setters; simpl. rewrite panels_toasts_route. simpl. exact Ht.
Qed.

Lemma processUserResponse_failure_witness :
  exists s',
    processUserResponse "I am ready" (Replied false (Some ("quota" : text)) None)
      Sample.interview = Returned s' /\
    conversationHistory (vars s') =
      conversationHistory (vars Sample.interview)
        ++ [ {| role := user; content := Some ("I am ready" : text) |};
             {| role := assistant; content := Some apology |} ] /\
    questionCount (vars s') = questionCount (vars Sample.interview) + 1 /\
    correctionCount (vars s') = correctionCount (vars Sample.interview) /\
    exists message,
      toasts (panels s') =
      toasts (panels Sample.interview) ++ [Ui.toast message "error"].
Proof.
  apply (processUserResponse_failure "I am ready"
           (Replied false (Some ("quota" : text)) None) Sample.interview).
  reflexivity.
Defined.

Lemma hasCorrection_spec (r : text) :
  hasCorrection r = true <-> containsIgnoringCase r "correction:".
Proof.
  unfold hasCorrection, containsIgnoringCase, toLowerCase.
  rewrite includes_spec. split.
  - intros (before & rest & H).
    apply map_eq_app in H as (b & tl & -> & Hb & H).
    apply map_eq_app in H as (w & rs & -> & Hw & Hrs).
    exists b, w, rs. split; [reflexivity | exact Hw].
  - intros (before & w & rest & -> & Hw).
    exists (map toLowerChar before), (map toLowerChar rest).
    rewrite !map_app, Hw. reflexivity.
Qed.

Lemma step_keeps_count (s : Interview) (e : Step) :
  correctionCount (vars s) = corrections (conversationHistory (vars s)) ->
  correctionCount (vars (step s e))
  = corrections (conversationHistory (vars (step s e))).
Proof.
  intros Inv. destruct e as [now | now | o | m | o]; simpl.
  - unfold startInterview. destruct (truthy (apiKey (vars s))); simpl.
    + destruct (bool_decide _); reflexivity.
    + exact Inv.
  - reflexivity.
  - destruct (sendInitialGreeting_receive_vars o s) as (-> & _ & ->).
    exact Inv.
  - rewrite corrections_app. simpl. lia.
  - unfold processUserResponse_receive.
    pose proof (vars_callGeminiAPI_result o s) as Hv.
    destruct (callGeminiAPI_result o s) as [s1 [r|]]; simpl in Hv |- *.
    + destruct (hasCorrection r) eqn:Hr; unfold_setters; simpl;
        rewrite vars_route; simpl; rewrite corrections_app; simpl;
        rewrite Hr, Hv; lia.
    + rewrite corrections_app, Hv. simpl. lia.
Qed.

(** C5: whatever the loop has done since the counter and the history
    last agreed (at a start they are 0 and empty) - utterances, replies
    and greetings arriving in any order, failed calls, fresh starts - the
    correction counter is the number of assistant turns of the history
    whose text contains [correction:] in any mix of cases. *)
Theorem correctionCount_counts_corrections (s : Interview) (l : list Step) :
  correctionCount (vars s) = corrections (conversationHistory (vars s)) ->
  correctionCount (vars (run s l))
  = corrections (conversationHistory (vars (run s l))) /\
  (forall r, hasCorrection r = true <-> containsIgnoringCase r "correction:").
Proof.
  intros Inv. split; [|exact hasCorrection_spec].
  revert s Inv. unfold run.
  induction l as [|e l IH]; intros s Inv; simpl; [exact Inv|].
  apply IH, step_keeps_count, Inv.
Qed.

Lemma correctionCount_counts_corrections_witness :
  let l :=
    [ StartInterview 1000; GreetingArrives (Sample.reply "Hello, shall we begin?");
      UserSpeaks "I has experience";
      ReplyArrives (Sample.reply "Correction: fix your tense");
      UserSpeaks "I have experience";
      ReplyArrives (Sample.reply "Great job!");
      UserSpeaks "I did many many things over many many years";
      ReplyArrives (Sample.reply "correction: be concise") ] in
  correctionCount (vars (run Sample.interview l))
  = corrections (conversationHistory (vars (run Sample.interview l))) /\
  (forall r, hasCorrection r = true <-> containsIgnoringCase r "correction:").
Proof.
  apply (correctionCount_counts_corrections Sample.interview
           [ StartInterview 1000; GreetingArrives (Sample.reply "Hello, shall we begin?");
             UserSpeaks "I has experience";
             ReplyArrives (Sample.reply "Correction: fix your tense");
             UserSpeaks "I have experience";
             ReplyArrives (Sample.reply "Great job!");
             UserSpeaks "I did many many things over many many years";
             ReplyArrives (Sample.reply "correction: be concise") ]).
  reflexivity.
Defined.

(** The example of the claim: three assistant turns, two corrections. *)
Example correctionCount_of_three_turns :
  let s :=
    run Sample.interview
      [ StartInterview 1000; GreetingArrives (Sample.reply "Hello, shall we begin?");
        UserSpeaks "I has experience";
        ReplyArrives (Sample.reply "Correction: fix your tense");
        UserSpeaks "I have experience";
        ReplyArrives (Sample.reply "Great job!");
        UserSpeaks "I did many many things over many many years";
        ReplyArrives (Sample.reply "correction: be concise") ] in
  omap (fun t => match role t with assistant => content t | user => None end)
       (conversationHistory (vars s))
  = [ ("Correction: fix your tense" : text); ("Great job!" : text);
      ("correction: be concise" : text) ] /\
  correctionCount (vars s) = 2.
Proof. split; reflexivity. Qed.

(** C8: the request that [processUserResponse] posts carries the API key
    and the history with the new utterance on it, and its prompt names the
    interview type and the difficulty, then lists the last five turns of
    that history, oldest first, one [role: text] line each (the last of
    them is the new utterance), then quotes the new utterance. *)
Theorem request_carries_context (userMessage : text) (s : Interview) :
  let request := (processUserResponse_send userMessage s).2 in
  let h := conversationHistory (vars s)
             ++ [ {| role := user; content := Some userMessage |} ] in
  let recent := lastEntries 5 h in
  prompt request =
    "You are an expert interview coach conducting a " ++ interviewType (form s)
      ++ " interview at " ++ difficulty (form s) ++ " level." ++ [LF]
      ++ "    " ++ [LF]
      ++ "Previous conversation:" ++ [LF]
      ++ join [LF] (map (fun t => roleName (role t) ++ ": " ++ toText (content t)) recent)
      ++ [LF] ++ [LF]
      ++ "The candidate just said: " ++ [DQ] ++ userMessage ++ [DQ] ++ [LF]
      ++ [LF]
      ++ "Analyze their response and:" ++ [LF]
      ++ "1. If there are issues, provide a brief correction starting with "
      ++ [DQ] ++ "Correction: " ++ [DQ] ++ [LF]
      ++ "2. Provide encouragement if tone is good" ++ [LF]
      ++ "3. Ask your next question" ++ [LF]
      ++ [LF]
      ++ "Keep responses natural and conversational." /\
  (exists older, h = older ++ recent) /\
  length recent = Nat.min 5 (length h) /\
  last recent = Some {| role := user; content := Some userMessage |} /\
  history request = h /\
  api_key request = apiKey (vars s).
Proof.
  intros request h recent. subst request. simpl.
  unfold exchangePrompt. simpl. rewrite slice_last5. fold h. fold recent.
  destruct (lastEntries_suffix 5 h) as (older & Hh & Hlen).
  fold recent in Hh, Hlen.
  repeat split; try assumption; try reflexivity.
  - exists older. exact Hh.
  - subst recent h. unfold lastEntries. rewrite rev_app_distr. simpl.
    apply last_snoc.
Qed.

Lemma callGeminiAPI_result_reply (o : FetchOutcome) (s : Interview) :
  (callGeminiAPI_result o s).2 = replyText o.
Proof. destruct o as [m | [] e r]; reflexivity. Qed.

Lemma handsText_replyText (o : FetchOutcome) :
  handsText o = true <-> exists r, replyText o = Some r.
Proof.
  destruct o as [m | [] e [r|]]; simpl; split; intros H; eauto;
    try discriminate. destruct H as [r H]. discriminate.
Qed.

Lemma stats_callGeminiAPI_result (o : FetchOutcome) (s : Interview) :
  shownStats (panels (callGeminiAPI_result o s).1) = shownStats (panels s).
Proof. destruct o as [m | [] e r]; reflexivity. Qed.

Lemma step_keeps_stats (s : Interview) (e : Step) :
  statsShown s -> statsShown (step s e).
Proof.
  unfold statsShown. intros Inv. destruct e as [now | now | o | m | o]; simpl.
  - unfold startInterview. destruct (truthy (apiKey (vars s))); simpl.
    + destruct (bool_decide _); reflexivity.
    + exact Inv.
  - reflexivity.
  - unfold sendInitialGreeting_receive.
    destruct (callGeminiAPI_result o s) as [s1 resp]. reflexivity.
  - exact Inv.
  - unfold processUserResponse_receive.
    pose proof (vars_callGeminiAPI_result o s) as Hv.
    pose proof (stats_callGeminiAPI_result o s) as Hp.
    destruct (callGeminiAPI_result o s) as [s1 [r|]]; simpl in Hv, Hp |- *.
    + reflexivity.
    + rewrite Hv, Hp. exact Inv.
Qed.

(** The statistics panel follows the counters: once what it shows agrees
    with [questionCount] and [correctionCount] (as after any start), it
    agrees after every further step of the loop, in any order: starts with
    or without an API key, greetings, utterances, replies, failed calls and
    replies that make [processUserResponse] throw. *)
Theorem stats_follow_counters (s : Interview) (l : list Step) :
  statsShown s -> statsShown (run s l).
Proof.
  revert s. unfold run. induction l as [|e l IH]; intros s Inv; simpl;
    [exact Inv|]. apply IH, step_keeps_stats, Inv.
Qed.

Lemma stats_follow_counters_witness :
  statsShown
    (run Sample.interview
       [ StartInterview 1000; UserSpeaks "too early";
         GreetingArrives (Sample.reply "Hello");
         ReplyArrives (Replied true None None);
         StartNewInterview 2000;
         ReplyArrives (Sample.reply "Correction: late reply") ]).
Proof.
  apply (stats_follow_counters Sample.interview
           [ StartInterview 1000; UserSpeaks "too early";
             GreetingArrives (Sample.reply "Hello");
             ReplyArrives (Replied true None None);
             StartNewInterview 2000;
             ReplyArrives (Sample.reply "Correction: late reply") ]).
  reflexivity.
Defined.

Lemma step_extends_history (s : Interview) (e : Step) :
  isStart e = false ->
  exists added,
    conversationHistory (vars (step s e)) = conversationHistory (vars s) ++ added.
Proof.
  destruct e as [now | now | o | m | o]; simpl; intros H; try discriminate.
  - exists []. destruct (sendInitialGreeting_receive_vars o s) as (-> & _).
    symmetry. apply app_nil_r.
  - eexists. reflexivity.
  - unfold processUserResponse_receive.
    pose proof (vars_callGeminiAPI_result o s) as Hv.
    destruct (callGeminiAPI_result o s) as [s1 [r|]]; simpl in Hv |- *.
    + eexists. destruct (hasCorrection r); unfold_setters; simpl;
        rewrite vars_route; simpl; rewrite Hv; reflexivity.
    + eexists. rewrite Hv. reflexivity.
Qed.

(** The history is append-only between starts: whatever sequence of
    greetings, utterances and replies runs, in any order and whether the
    calls fail or the replies throw, the entries that were on
    [conversationHistory] stay, in place and unchanged, at its front. *)
Theorem history_append_only (s : Interview) (l : list Step) :
  forallb (fun e => negb (isStart e)) l = true ->
  exists added,
    conversationHistory (vars (run s l)) = conversationHistory (vars s) ++ added.
Proof.
  revert s. unfold run. induction l as [|e l IH]; intros s H; simpl in *.
  - exists []. symmetry. apply app_nil_r.
  - apply andb_true_iff in H as [He Hl]. apply negb_true_iff in He.
    destruct (step_extends_history s e He) as [a1 H1].
    destruct (IH (step s e) Hl) as [a2 H2].
    exists (a1 ++ a2). rewrite H2, H1. symmetry. apply app_assoc.
Qed.

Lemma history_append_only_witness :
  exists added,
    conversationHistory
      (vars (run Sample.interview
               [ UserSpeaks "first"; UserSpeaks "second";
                 ReplyArrives (Rejected "Failed to fetch");
                 ReplyArrives (Replied true None None) ]))
    = conversationHistory (vars Sample.interview) ++ added.
Proof.
  apply (history_append_only Sample.interview
           [ UserSpeaks "first"; UserSpeaks "second";
             ReplyArrives (Rejected "Failed to fetch");
             ReplyArrives (Replied true None None) ]).
  reflexivity.
Defined.

(** Turns that complete one after the other leave, for each turn and in
    the order of the turns, the utterance and then its reply on the history
    (the apology where the call failed), and nothing else. *)
Theorem exchangeTurns_history (turns : list (text * FetchOutcome))
        (s : Interview) :
  forallb (fun t => handsText t.2) turns = true ->
  exists s',
    exchangeTurns turns s = Returned s' /\
    conversationHistory (vars s')
    = conversationHistory (vars s) ++ flat_map exchanged turns.
Proof.
  revert s. induction turns as [|[m o] turns IH]; intros s H; simpl in *.
  - exists s. split; [reflexivity | symmetry; apply app_nil_r].
  - apply andb_true_iff in H as [Ho Hrest].
    destruct (proj1 (handsText_replyText o) Ho) as [r Hr].
    assert (Hc : (callGeminiAPI_result o (processUserResponse_send m s).1).2 = Some r)
      by (rewrite callGeminiAPI_result_reply; exact Hr).
    destruct (processUserResponse_vars m o s r Hc) as (s1 & -> & Hh & _).
    destruct (IH s1 Hrest) as (s' & -> & Hh').
    exists s'. split; [reflexivity|].
    rewrite Hh', Hh, <- app_assoc. unfold exchanged at 2. simpl.
    rewrite Hr. reflexivity.
Qed.

Lemma exchangeTurns_history_witness :
  exists s',
    exchangeTurns
      [ ("I am ready" : text, Sample.reply "Tell me about yourself.");
        ("I write compilers" : text, Replied false None None) ]
      Sample.interview = Returned s' /\
    conversationHistory (vars s')
    = conversationHistory (vars Sample.interview)
        ++ flat_map exchanged
             [ ("I am ready" : text, Sample.reply "Tell me about yourself.");
               ("I write compilers" : text, Replied false None None) ].
Proof.
  apply (exchangeTurns_history
           [ ("I am ready" : text, Sample.reply "Tell me about yourself.");
             ("I write compilers" : text, Replied false None None) ]
           Sample.interview).
  reflexivity.
Defined.

(** A body with a success status but no [response] field makes
    [processUserResponse] throw: the utterance and an assistant entry
    without content are on the history by then, no counter has moved,
    nothing was shown, spoken or toasted, and the next prompt lists the
    entry as [assistant: undefined]. *)
Theorem processUserResponse_without_response
        (userMessage : text) (error : option text) (s : Interview) :
  exists s',
    processUserResponse userMessage (Replied true error None) s = Threw s' /\
    conversationHistory (vars s')
    = conversationHistory (vars s)
        ++ [ {| role := user; content := Some userMessage |};
             {| role := assistant; content := None |} ] /\
    questionCount (vars s') = questionCount (vars s) /\
    correctionCount (vars s') = correctionCount (vars s) /\
    panels s' = panels s /\
    In ("assistant: undefined" : text)
       (map line (slice (conversationHistory (vars s')) (-5) None)).
Proof.
  eexists. split; [reflexivity|]. simpl.
  rewrite <- app_assoc. simpl. repeat split.
  rewrite slice_last5. unfold lastEntries.
  rewrite !rev_app_distr. simpl. rewrite map_app. apply in_or_app.
  right. left. reflexivity.
Qed.

Lemma route_voice (response : option text) (s : Interview) :
  voiceModeDisplay (layout s) <> ("none" : text) ->
  route response s
  = speakText (toText response)
      (addTranscript ("Interviewer: " ++ toText response) s).
Proof.
  intros H. unfold route.
  destruct (bool_decide (voiceModeDisplay (layout s) = ("none" : text))) eqn:Hb;
    [|reflexivity].
  apply bool_decide_eq_true in Hb. contradiction.
Qed.

Lemma route_chat (response : option text) (s : Interview) :
  voiceModeDisplay (layout s) = ("none" : text) ->
  route response s = addChatMessage (chatMarkup (toText response)) "ai" s.
Proof.
  intros H. unfold route.
  destruct (bool_decide (voiceModeDisplay (layout s) = ("none" : text))) eqn:Hb;
    [reflexivity|].
  apply bool_decide_eq_false in Hb. contradiction.
Qed.

(** Where the reply of a completed turn is put. *)
Lemma processUserResponse_surface
        (userMessage r : text) (o : FetchOutcome) (s : Interview) :
  replyText o = Some r ->
  exists s',
    processUserResponse userMessage o s = Returned s' /\
    (voiceModeDisplay (layout s) <> ("none" : text) ->
     voiceTranscript (panels s')
     = voiceTranscript (panels s) ++ ["Interviewer: " ++ r] /\
     chatMessages (panels s') = chatMessages (panels s) /\
     (speechSynthesis s = true -> speechQueue (panels s') = [r])) /\
    (voiceModeDisplay (layout s) = ("none" : text) ->
     voiceTranscript (panels s') = voiceTranscript (panels s) /\
     chatMessages (panels s')
     = chatMessages (panels s) ++ [("ai" : text, chatMarkup r)] /\
     speechQueue (panels s') = speechQueue (panels s)).
Proof.
  intros Hr. unfold processUserResponse, processUserResponse_receive.
  rewrite (surjective_pairing (callGeminiAPI_result o _)).
  rewrite callGeminiAPI_result_reply, Hr.
  set (s1 := (callGeminiAPI_result o (processUserResponse_send userMessage s).1).1).
  assert (Hl : layout s1 = layout s)
    by (unfold s1; destruct o as [m | [] e resp]; reflexivity).
  assert (Hs : speechSynthesis s1 = speechSynthesis s)
    by (unfold s1; destruct o as [m | [] e resp]; reflexivity).
  assert (Hp : voiceTranscript (panels s1) = voiceTranscript (panels s) /\
               chatMessages (panels s1) = chatMessages (panels s) /\
               speechQueue (panels s1) = speechQueue (panels s))
    by (unfold s1; destruct o as [m | [] e resp]; repeat split).
  destruct Hp as (Hp1 & Hp2 & Hp3).
  set (s2 := setHistory _ s1).
  set (s3 := if hasCorrection r then _ else s2).
  assert (H3 : layout s3 = layout s /\ speechSynthesis s3 = speechSynthesis s /\
               panels s3 = panels s1).
  { unfold s3, s2. destruct (hasCorrection r); simpl; auto. }
  destruct H3 as (Hl3 & Hs3 & Hp3'). clearbody s3. clear s2.
  eexists. split; [reflexivity|].
  split; intros Hmode.
  - rewrite route_voice by (rewrite Hl3; exact Hmode).
    unfold speakText, addTranscript, setPanels. simpl. rewrite Hs3.
    destruct (speechSynthesis s); simpl; rewrite Hp3'; simpl;
      rewrite Hp1, Hp2; repeat split; discriminate.
  - rewrite route_chat by (rewrite Hl3; exact Hmode).
    unfold addChatMessage, setPanels. simpl.
    rewrite Hp3'. simpl. rewrite Hp1, Hp2, Hp3. repeat split.
Qed.

(** Every reply of a completed turn reaches exactly one surface, the one
    displayed: while the voice panel is displayed it is appended to the
    transcript (and spoken, if the browser can speak) and the chat list is
    left alone; once the voice panel is hidden it is appended to the chat
    list and neither transcribed nor spoken. *)
Theorem reply_reaches_one_surface
        (userMessage r : text) (o : FetchOutcome) (s : Interview) :
  replyText o = Some r ->
  exists s',
    processUserResponse userMessage o s = Returned s' /\
    (voiceModeDisplay (layout s) <> ("none" : text) ->
     voiceTranscript (panels s')
     = voiceTranscript (panels s) ++ ["Interviewer: " ++ r] /\
     chatMessages (panels s') = chatMessages (panels s) /\
     (speechSynthesis s = true -> speechQueue (panels s') = [r])) /\
    (voiceModeDisplay (layout s) = ("none" : text) ->
     voiceTranscript (panels s') = voiceTranscript (panels s) /\
     chatMessages (panels s')
     = chatMessages (panels s) ++ [("ai" : text, chatMarkup r)] /\
     speechQueue (panels s') = speechQueue (panels s)).
Proof. exact (processUserResponse_surface userMessage r o s). Qed.

Lemma reply_reaches_one_surface_witness :
  exists s',
    processUserResponse "I am ready" (Rejected "Failed to fetch")
      Sample.interview = Returned s' /\
    (voiceModeDisplay (layout Sample.interview) <> ("none" : text) ->
     voiceTranscript (panels s')
     = voiceTranscript (panels Sample.interview) ++ ["Interviewer: " ++ apology] /\
     chatMessages (panels s') = chatMessages (panels Sample.interview) /\
     (speechSynthesis Sample.interview = true ->
      speechQueue (panels s') = [apology])) /\
    (voiceModeDisplay (layout Sample.interview) = ("none" : text) ->
     voiceTranscript (panels s') = voiceTranscript (panels Sample.interview) /\
     chatMessages (panels s')
     = chatMessages (panels Sample.interview)
         ++ [("ai" : text, chatMarkup apology)] /\
     speechQueue (panels s') = speechQueue (panels Sample.interview)).
Proof.
  apply (reply_reaches_one_surface "I am ready" apology
           (Rejected "Failed to fetch") Sample.interview).
  reflexivity.
Defined.

(** [handleStartSession] stores the key before it is tested.  A blank
    value wipes the key held in memory, so that [startInterview] afterwards
    posts nothing; a key that the test refuses stays in memory, the screen
    stays as it was, and [startInterview] afterwards posts the greeting
    request with the refused key. *)
Theorem handleStartSession_stores_before_test
        (blank refused : text) (now : Z) (s : Interview) :
  truthy (trim blank) = false ->
  truthy (trim refused) = true ->
  (let s' := (handleStartSession blank true s).1 in
   (handleStartSession blank true s).2 = None /\
   apiKey (vars s') = [] /\
   page s' = page s /\
   (startInterview now s').2 = None) /\
  (let s' := (handleStartSession refused false s).1 in
   (handleStartSession refused false s).2 = Some (trim refused) /\
   apiKey (vars s') = trim refused /\
   page s' = page s /\
   exists request,
     (startInterview now s').2 = Some request /\
     api_key request = trim refused).
Proof.
  intros Hb Hr. split; unfold handleStartSession; simpl.
  - rewrite Hb. simpl. destruct (trim blank); [|discriminate]. repeat split.
  - rewrite Hr. simpl. repeat split. unfold startInterview. simpl.
    rewrite Hr. simpl. eexists. split; reflexivity.
Qed.

Lemma handleStartSession_stores_before_test_witness :
  (let s' := (handleStartSession "   " true Sample.interview).1 in
   (handleStartSession "   " true Sample.interview).2 = None /\
   apiKey (vars s') = [] /\
   page s' = page Sample.interview /\
   (startInterview 1000 s').2 = None) /\
  (let s' := (handleStartSession " wrong-key " false Sample.interview).1 in
   (handleStartSession " wrong-key " false Sample.interview).2
   = Some (trim " wrong-key ") /\
   apiKey (vars s') = trim " wrong-key " /\
   page s' = page Sample.interview /\
   exists request,
     (startInterview 1000 s').2 = Some request /\
     api_key request = trim " wrong-key ").
Proof.
  apply (handleStartSession_stores_before_test "   " " wrong-key " 1000
           Sample.interview); reflexivity.
Defined.

(** A chat message and its reply.  [sendChatMessage] on a value that is
    not blank clears the input and posts a request; when the reply [r]
    arrives while the chat panel is the one displayed, the chat list has
    gained the trimmed message and then the reply, each inside its markup
    exactly as it was typed or received (no character is escaped), the
    history has gained the same two texts as a user turn and an assistant
    turn, and nothing went to the voice transcript. *)
Theorem chat_message_and_reply
        (value r : text) (o : FetchOutcome) (s : Interview) :
  truthy (trim value) = true ->
  voiceModeDisplay (layout s) = ("none" : text) ->
  replyText o = Some r ->
  exists s1 request s',
    sendChatMessage value s = (s1, [], Some request) /\
    processUserResponse_receive o s1 = Returned s' /\
    chatMessages (panels s')
    = chatMessages (panels s)
        ++ [ ("user" : text, chatMarkup (trim value));
             ("ai" : text, chatMarkup r) ] /\
    conversationHistory (vars s')
    = conversationHistory (vars s)
        ++ [ {| role := user; content := Some (trim value) |};
             {| role := assistant; content := Some r |} ] /\
    voiceTranscript (panels s') = voiceTranscript (panels s).
Proof.
  intros Hv Hmode Hr. unfold sendChatMessage. rewrite Hv.
  cbn [negb]. set (s0 := addChatMessage (chatMarkup (trim value)) "user" s).
  rewrite (surjective_pairing (processUserResponse_send (trim value) s0)).
  destruct (processUserResponse_surface (trim value) r o s0 Hr)
    as (s' & Hrun & _ & Hchat).
  destruct (Hchat Hmode) as (Ht & Hc & _).
  assert (Hreply : (callGeminiAPI_result o
                      (processUserResponse_send (trim value) s0).1).2 = Some r)
    by (rewrite callGeminiAPI_result_reply; exact Hr).
  destruct (processUserResponse_vars (trim value) o s0 r Hreply)
    as (s'' & Hrun' & Hh & _).
  rewrite Hrun in Hrun'. injection Hrun' as <-.
  exists (processUserResponse_send (trim value) s0).1,
         (processUserResponse_send (trim value) s0).2, s'.
  split; [reflexivity|]. split; [exact Hrun|].
  rewrite Hc, Hh, Ht. unfold s0. cbn.
  rewrite <- app_assoc. repeat split.
Qed.

Lemma chat_message_and_reply_witness :
  exists s1 request s',
    sendChatMessage " <b>hello</b> " (Sample.inChat Sample.interview)
    = (s1, [], Some request) /\
    processUserResponse_receive (Sample.reply "Go on.") s1 = Returned s' /\
    chatMessages (panels s')
    = chatMessages (panels (Sample.inChat Sample.interview))
        ++ [ ("user" : text, chatMarkup (trim " <b>hello</b> "));
             ("ai" : text, chatMarkup "Go on.") ] /\
    conversationHistory (vars s')
    = conversationHistory (vars (Sample.inChat Sample.interview))
        ++ [ {| role := user; content := Some (trim " <b>hello</b> ") |};
             {| role := assistant; content := Some ("Go on." : text) |} ] /\
    voiceTranscript (panels s')
    = voiceTranscript (panels (Sample.inChat Sample.interview)).
Proof.
  apply (chat_message_and_reply " <b>hello</b> " "Go on." (Sample.reply "Go on.")
           (Sample.inChat Sample.interview)); reflexivity.
Defined.

End ExchangeProps.

(** *** The paper helpers *)
Section PaperProps.
Import Js Paper.

Example escapeHtml_sample :
  escapeHtml ("<a href='x'>" : text) = ("&lt;a href&#61;&#39;x&#39;>" : text).
Proof. reflexivity. Qed.

Example parseQuestions_sample :
  parseQuestions
    ("===QUESTION PAPER===" ++ [LF] ++
     "1. What is the capital of France?" ++ [LF] ++
     "2. Explain photosynthesis in detail." ++ [LF] ++
     "===end paper===")
    "" =
  [ ("What is the capital of France?" : text);
    ("Explain photosynthesis in detail." : text) ].
Proof. reflexivity. Qed.

Lemma escapeHtml_escaped (unsafe : text) :
  escapeHtml unsafe = concat (map escaped unsafe).
Proof.
  unfold escapeHtml, replaceClass. rewrite flat_map_concat_map.
  f_equal. apply map_ext. intros c.
  destruct c as [[] [] [] [] [] [] [] []]; reflexivity.
Qed.

(** An entity is an ampersand followed by characters that need no
    escaping and are not ampersands. *)
Lemma escaped_shape (c : ascii) :
  (inClass c = false /\ escaped c = [c]) \/
  (exists tail,
      escaped c = "&"%char :: tail /\
      In (escaped c) (map snd entities) /\
      Forall (fun x => inClass x = false) tail).
Proof.
  destruct c as [[] [] [] [] [] [] [] []];
    first [ left; split; reflexivity
          | right; eexists; split; [reflexivity|];
            split; [simpl; tauto | repeat constructor] ].
Qed.

Lemma split_after_clean (t before rest out : text) (x : ascii) :
  Forall (fun y => inClass y = false) t -> inClass x = true ->
  before ++ x :: rest = t ++ out ->
  exists before', before = t ++ before' /\ before' ++ x :: rest = out.
Proof.
  revert before. induction t as [|y t IH]; intros before Ht Hx H.
  - exists before. split; [reflexivity | exact H].
  - inversion Ht as [|? ? Hy Ht']; subst.
    destruct before as [|b before]; simpl in H.
    + injection H as -> _. congruence.
    + injection H as -> H. destruct (IH before Ht' Hx H) as (b' & -> & H').
      exists b'. split; [reflexivity | exact H'].
Qed.

(** In the output a character of the class is an ampersand, the first
    character of an entity. *)
Lemma escapeHtml_class_char (unsafe before rest : text) (x : ascii) :
  inClass x = true ->
  escapeHtml unsafe = before ++ x :: rest ->
  x = "&"%char /\
  exists entity, In entity (map snd entities) /\
                 startsWith (x :: rest) entity = true.
Proof.
  rewrite escapeHtml_escaped. revert before.
  induction unsafe as [|c unsafe IH]; intros before Hx H; simpl in H.
  - destruct before; discriminate.
  - destruct (escaped_shape c) as [[Hc Hesc] | (tail & Hesc & Hin & Htail)].
    + rewrite Hesc in H. destruct before as [|b before]; simpl in H.
      * injection H as -> _. congruence.
      * injection H as _ H. exact (IH before Hx H).
    + destruct before as [|b before].
      * rewrite Hesc in H. simpl in H. injection H as <- Hr.
        split; [reflexivity|]. exists (escaped c). split; [exact Hin|].
        apply startsWith_spec. exists (concat (map escaped unsafe)).
        rewrite Hesc. simpl. congruence.
      * rewrite Hesc in H. simpl in H. injection H as <- H.
        destruct (split_after_clean tail before rest _ x Htail Hx (eq_sym H))
          as (b' & -> & H').
        exact (IH b' Hx (eq_sym H')).
Qed.

Lemma count_gt_escaped (c : ascii) :
  count_occ Ascii.ascii_dec (escaped c) ">"%char
  = count_occ Ascii.ascii_dec [c] ">"%char.
Proof. destruct c as [[] [] [] [] [] [] [] []]; reflexivity. Qed.

(** C9: [escapeHtml] puts the entity in the place of every [&], [<],
    double quote, single quote, backquote, [=] and [/] and leaves every
    other character as it is.  None of the seven is raw in the output:
    six of them do not occur in it at all, and an ampersand occurs only
    as the first character of an entity.  Every [>] of the input passes
    through unescaped, although the table has an entity for it and the
    class does not list it. *)
Theorem escapeHtml_spec (unsafe : text) :
  escapeHtml unsafe = concat (map escaped unsafe) /\
  (forall x, In x classChars -> x <> "&"%char -> ~ In x (escapeHtml unsafe)) /\
  (forall before rest,
      escapeHtml unsafe = before ++ "&"%char :: rest ->
      exists entity, In entity (map snd entities) /\
                     startsWith ("&"%char :: rest) entity = true) /\
  count_occ Ascii.ascii_dec (escapeHtml unsafe) ">"%char
  = count_occ Ascii.ascii_dec unsafe ">"%char /\
  property ">"%char entities = Some ("&gt;" : text) /\
  inClass ">"%char = false.
Proof.
  split; [apply escapeHtml_escaped|]. split; [|split; [|split]].
  - intros x Hx Hne Hin. apply in_split in Hin as (before & rest & H).
    assert (Hc : inClass x = true).
    { unfold inClass. apply existsb_exists. exists x. split; [exact Hx|].
      apply Ascii.eqb_refl. }
    destruct (escapeHtml_class_char unsafe before rest x Hc H) as [Hamp _].
    contradiction.
  - intros before rest H.
    destruct (escapeHtml_class_char unsafe before rest "&"%char eq_refl H)
      as [_ He]. exact He.
  - rewrite escapeHtml_escaped.
    induction unsafe as [|c unsafe IH]; [reflexivity|].
    simpl concat. rewrite count_occ_app, IH, count_gt_escaped.
    change (c :: unsafe) with ([c] ++ unsafe). rewrite count_occ_app.
    reflexivity.
  - split; reflexivity.
Qed.

(** The ampersands that the output does hold are those of the entities. *)
Remark escapeHtml_entity_ampersand :
  escapeHtml "<" = ("&lt;" : text) /\ In "&"%char (escapeHtml "<").
Proof. split; [reflexivity | left; reflexivity]. Qed.

Lemma trimStart_head (s : text) (c : ascii) :
  head (trimStart s) = Some c -> isWhiteSpace c = false.
Proof.
  induction s as [|a s IH]; simpl; [discriminate|].
  destruct (isWhiteSpace a) eqn:Ha; [exact IH|].
  simpl. intros [= <-]. exact Ha.
Qed.

Lemma trimStart_drop (s : text) : exists k, trimStart s = drop k s.
Proof.
  induction s as [|a s [k IH]]; simpl; [exists 0; reflexivity|].
  destruct (isWhiteSpace a); [exists (S k); exact IH | exists 0; reflexivity].
Qed.

Lemma last_rev_head {A : Type} (l : list A) : last (rev l) = head l.
Proof. destruct l as [|a l]; [reflexivity | simpl; apply last_snoc]. Qed.

Lemma head_take {A : Type} (n : nat) (l : list A) (a : A) :
  head (take n l) = Some a -> head l = Some a.
Proof. destruct n, l; simpl; congruence. Qed.

Lemma trim_trimmed (s : text) : trimmed (trim s).
Proof.
  unfold trim, trimEnd. split; intros c H.
  - destruct (trimStart_drop (rev (trimStart s))) as [k Hk].
    rewrite Hk, skipn_rev, rev_involutive in H.
    apply head_take in H. exact (trimStart_head s c H).
  - rewrite last_rev_head in H. exact (trimStart_head _ c H).
Qed.

Lemma slice_prefix {A : Type} (l : list A) (e : num) :
  exists n, slice l 0 (Some e) = take n l /\
            (forall z, e = Int z -> (0 <= z)%Z -> (Z.of_nat n <= z)%Z) /\
            (e = NaN -> n = 0).
Proof.
  unfold slice, relIndex. simpl.
  replace (Z.min 0 (Z.of_nat (length l))) with 0%Z by lia.
  rewrite Z.sub_0_r. simpl.
  eexists. split; [reflexivity|]. split.
  - intros z -> Hz. simpl. destruct (Z.ltb_spec z 0); lia.
  - intros ->. simpl. lia.
Qed.

Lemma parseQuestions_spec (content value : text) :
  Forall (fun q => trimmed q /\ 20 < length q) (parseQuestions content value) /\
  (forall z, parseInt10 (orElse value "10") = Int z -> (0 <= z)%Z ->
             (Z.of_nat (length (parseQuestions content value)) <= z)%Z) /\
  (parseInt10 (orElse value "10") = NaN -> parseQuestions content value = []).
Proof.
  unfold parseQuestions.
  set (candidates := List.filter _ _).
  destruct (slice_prefix candidates (parseInt10 (orElse value "10")))
    as (n & -> & Hle & Hnan).
  split; [|split].
  - apply Forall_take. apply List.Forall_forall. intros q Hq.
    apply filter_In in Hq as [Hq Hlen]. apply in_map_iff in Hq as (r & <- & _).
    split; [apply trim_trimmed | apply Nat.ltb_lt, Hlen].
  - intros z Hz Hpos. specialize (Hle z Hz Hpos).
    rewrite length_take. lia.
  - intros H. rewrite (Hnan H). reflexivity.
Qed.

(** C10, as the script has it: for a paper that is found,
    [useGeneratedPaper] selects questions whose texts are trimmed and
    longer than 20, numbered from 1 in their order; there are at most as
    many as the parsed value of the [numQuestions] input when that value
    is not negative (at most 10 when the input is empty, none when the
    value is not a number). *)
Theorem useGeneratedPaper_selects
        (paperId content : text) (papers : gmap text text) (w : Window) :
  _generated_papers w = Some papers ->
  papers !! paperId = Some content ->
  truthy content = true ->
  exists questions,
    _selected_generated_questions (useGeneratedPaper paperId w) = Some questions /\
    Forall (fun q => trimmed (q_text q) /\ 20 < length (q_text q)) questions /\
    (forall i q, questions !! i = Some q -> qid q = i + 1) /\
    (forall z, parseInt10 (orElse (numQuestions w) "10") = Int z ->
               (0 <= z)%Z -> (Z.of_nat (length questions) <= z)%Z) /\
    (numQuestions w = [] -> length questions <= 10) /\
    (parseInt10 (orElse (numQuestions w) "10") = NaN -> questions = []).
Proof.
  intros Hp Hc Ht. unfold useGeneratedPaper. rewrite Hp, Hc, Ht. simpl.
  destruct (parseQuestions_spec content (numQuestions w)) as (Hall & Hle & Hnan).
  eexists. split; [reflexivity|]. split; [|split; [|split; [|split]]].
  - apply Forall_lookup. intros i q Hq.
    rewrite list_lookup_imap in Hq.
    destruct (parseQuestions content (numQuestions w) !! i) as [t|] eqn:Hi;
      [|discriminate].
    injection Hq as <-. simpl.
    exact (proj1 (Forall_lookup _ _) Hall i t Hi).
  - intros i q Hq. rewrite list_lookup_imap in Hq.
    destruct (parseQuestions content (numQuestions w) !! i); [|discriminate].
    injection Hq as <-. reflexivity.
  - intros z Hz Hpos. rewrite length_imap. exact (Hle z Hz Hpos).
  - intros Hempty. rewrite length_imap.
    assert (H : (Z.of_nat (length (parseQuestions content (numQuestions w))) <= 10)%Z).
    { apply Hle; [rewrite Hempty; reflexivity | lia]. }
    lia.
  - intros H. rewrite (Hnan H). reflexivity.
Qed.

Lemma useGeneratedPaper_selects_witness :
  exists questions,
    _selected_generated_questions (useGeneratedPaper "p1" Sample.window)
    = Some questions /\
    Forall (fun q => trimmed (q_text q) /\ 20 < length (q_text q)) questions /\
    (forall i q, questions !! i = Some q -> qid q = i + 1) /\
    (forall z, parseInt10 (orElse (numQuestions Sample.window) "10") = Int z ->
               (0 <= z)%Z -> (Z.of_nat (length questions) <= z)%Z) /\
    (numQuestions Sample.window = [] -> length questions <= 10) /\
    (parseInt10 (orElse (numQuestions Sample.window) "10") = NaN -> questions = []).
Proof.
  apply (useGeneratedPaper_selects "p1" Sample.paper
           {[ ("p1" : text) := Sample.paper ]} Sample.window);
    reflexivity.
Defined.

(** C10 as stated fails: with [-1] in the [numQuestions] input the
    parsed value is [-1] and one question is selected. *)
Lemma useGeneratedPaper_negative_count :
  parseInt10 (orElse (numQuestions Sample.window) "10") = Int (-1) /\
  exists questions,
    _selected_generated_questions (useGeneratedPaper "p1" Sample.window)
    = Some questions /\
    ~ (Z.of_nat (length questions) <= -1)%Z.
Proof.
  split; [reflexivity|]. eexists. split; [vm_compute; reflexivity|].
  simpl. lia.
Qed.

Lemma inClass_true (c : ascii) :
  inClass c = true ->
  c = "&"%char \/ c = "<"%char \/ c = DQ \/ c = "'"%char \/
  c = "`"%char \/ c = "="%char \/ c = "/"%char.
Proof.
  destruct c as [[] [] [] [] [] [] [] []]; intros H; try discriminate H;
    repeat (first [left; reflexivity | right]); reflexivity.
Qed.

Lemma escaped_cons_injective (x y : ascii) (a b : text) :
  escaped x ++ a = escaped y ++ b -> x = y /\ a = b.
Proof.
  intros H.
  destruct (escaped_shape x) as [[Hx Ex] | (tx & Ex & _ & _)];
    destruct (escaped_shape y) as [[Hy Ey] | (ty & Ey & _ & _)].
  - rewrite Ex, Ey in H. injection H as -> ->. auto.
  - rewrite Ex, Ey in H. injection H as -> _. discriminate Hx.
  - rewrite Ex, Ey in H. injection H as <- _. discriminate Hy.
  - assert (Cx : inClass x = true).
    { destruct (inClass x) eqn:E; [reflexivity|].
      destruct (escaped_shape x) as [[_ E1] | (t & E1 & _ & _)].
      - revert Ex. rewrite E1. intros [= -> _]. discriminate E.
      - destruct x as [[] [] [] [] [] [] [] []]; discriminate. }
    assert (Cy : inClass y = true).
    { destruct (inClass y) eqn:E; [reflexivity|].
      destruct y as [[] [] [] [] [] [] [] []]; discriminate. }
    clear Ex Ey.
    destruct (inClass_true x Cx) as [->|[->|[->|[->|[->|[->| ->]]]]]];
      destruct (inClass_true y Cy) as [->|[->|[->|[->|[->|[->| ->]]]]]];
      simpl in H; try discriminate H; injection H as ->; auto.
Qed.

(** Escaping loses nothing: two texts with the same escaped form are the
    same text. *)
Theorem escapeHtml_injective (a b : text) :
  escapeHtml a = escapeHtml b -> a = b.
Proof.
  rewrite !escapeHtml_escaped. revert b.
  induction a as [|x a IH]; intros [|y b] H; simpl in H.
  - reflexivity.
  - destruct (escaped_shape y) as [[_ E] | (t & E & _ & _)];
      rewrite E in H; discriminate.
  - destruct (escaped_shape x) as [[_ E] | (t & E & _ & _)];
      rewrite E in H; discriminate.
  - apply escaped_cons_injective in H as [-> H]. f_equal. exact (IH b H).
Qed.

Lemma escapeHtml_injective_witness :
  ("a<b" : text) = ("a<b" : text).
Proof.
  apply (escapeHtml_injective "a<b" "a<b"). reflexivity.
Defined.

Lemma within_refl (t : text) : within t t.
Proof. exists [], []. rewrite app_nil_r. reflexivity. Qed.

Lemma within_trans (p q t : text) : within p q -> within q t -> within p t.
Proof.
  intros (a & b & ->) (c & d & ->). exists (c ++ a), (b ++ d).
  rewrite <- !app_assoc. reflexivity.
Qed.

Lemma within_later (p t : text) (c : ascii) : within p t -> within p (c :: t).
Proof. intros (a & b & ->). exists (c :: a), b. reflexivity. Qed.

Lemma within_after (p t before : text) : within p t -> within p (before ++ t).
Proof.
  intros (a & b & ->). exists (before ++ a), b. rewrite <- app_assoc.
  reflexivity.
Qed.

Lemma trimStart_within (s : text) : within (trimStart s) s.
Proof.
  destruct (trimStart_drop s) as [k ->]. exists (take k s), [].
  rewrite app_nil_r. symmetry. apply take_drop.
Qed.

Lemma trim_within (s : text) : within (trim s) s.
Proof.
  apply within_trans with (trimStart s); [|apply trimStart_within].
  unfold trim, trimEnd.
  destruct (trimStart_drop (rev (trimStart s))) as [k ->].
  rewrite skipn_rev, rev_involutive.
  exists [], (drop (length (trimStart s) - k) (trimStart s)).
  simpl. symmetry. apply take_drop.
Qed.

(** Every piece that [split] hands out is a run of the text it split. *)
Lemma split_go_within (sep : text -> option nat) (s : text) :
  forall skip cur p,
    skip = 0 \/ cur = [] ->
    In p (split_go sep skip cur s) -> within p (rev cur ++ s).
Proof.
  induction s as [|c s IH]; intros skip cur p Hinv Hin; simpl in Hin.
  - destruct Hin as [<-|[]]. exists [], []. rewrite app_nil_r. reflexivity.
  - destruct skip as [|k].
    + destruct (sep (c :: s)) as [[|k]|] eqn:Hsep.
      * apply (IH 0 (c :: cur) p (or_introl eq_refl)) in Hin. simpl in Hin.
        rewrite <- app_assoc in Hin. exact Hin.
      * destruct Hin as [<-|Hin].
        -- exists [], (c :: s). reflexivity.
        -- apply (IH k [] p (or_intror eq_refl)) in Hin. simpl in Hin.
           apply within_after, within_later, Hin.
      * apply (IH 0 (c :: cur) p (or_introl eq_refl)) in Hin. simpl in Hin.
        rewrite <- app_assoc in Hin. exact Hin.
    + destruct Hinv as [Hk| ->]; [discriminate|].
      apply (IH k [] p (or_intror eq_refl)) in Hin. simpl in Hin |- *.
      apply within_later, Hin.
Qed.

Lemma split_within (sep : text -> option nat) (s p : text) :
  In p (split sep s) -> within p s.
Proof. intros H. exact (split_go_within sep s 0 [] p (or_introl eq_refl) H). Qed.

Lemma parseQuestions_within (content value q : text) :
  In q (parseQuestions content value) -> within q content.
Proof.
  unfold parseQuestions. set (parts := List.filter _ (split paperMarker content)).
  set (questionsText := orElse _ content).
  assert (Hq : within questionsText content).
  { unfold questionsText, orElse. destruct parts as [|p0 parts'] eqn:Hp;
      [apply within_refl|].
    destruct (truthy p0); [|apply within_refl].
    apply split_within with paperMarker.
    assert (Hin : In p0 parts) by (rewrite Hp; left; reflexivity).
    unfold parts in Hin. apply filter_In in Hin as [Hin _]. exact Hin. }
  intros Hin.
  destruct (slice_prefix
              (List.filter (fun q => 20 <? length q)
                 (map trim (split questionBreak questionsText)))
              (parseInt10 (orElse value "10"))) as (n & Hs & _).
  rewrite Hs in Hin. apply list_elem_of_In, subseteq_take, list_elem_of_In in Hin.
  apply filter_In in Hin as [Hin _].
  apply in_map_iff in Hin as (piece & <- & Hpiece).
  apply within_trans with questionsText; [|exact Hq].
  apply within_trans with piece; [apply trim_within|].
  apply split_within with questionBreak. exact Hpiece.
Qed.

(** [useGeneratedPaper] invents no text: every question it selects is a
    run of consecutive characters of the stored paper. *)
Theorem useGeneratedPaper_texts_within_paper
        (paperId content : text) (papers : gmap text text) (w : Window)
        (questions : list Question) (q : Question) :
  _generated_papers w = Some papers ->
  papers !! paperId = Some content ->
  _selected_generated_questions (useGeneratedPaper paperId w) = Some questions ->
  truthy content = true ->
  In q questions ->
  within (q_text q) content.
Proof.
  intros Hp Hc Hsel Ht Hq. unfold useGeneratedPaper in Hsel.
  rewrite Hp, Hc, Ht in Hsel. simpl in Hsel. injection Hsel as <-.
  apply list_elem_of_In, elem_of_lookup_imap in Hq as (i & t & -> & Hi).
  simpl. apply parseQuestions_within with (numQuestions w).
  apply list_elem_of_In, list_elem_of_lookup. eauto.
Qed.

Lemma useGeneratedPaper_texts_within_paper_witness :
  within ("What is the capital of France?" : text) Sample.paper.
Proof.
  apply (useGeneratedPaper_texts_within_paper "p1" Sample.paper
           {[ ("p1" : text) := Sample.paper ]} Sample.window
           [ {| qid := 1; q_text := "What is the capital of France?" |} ]
           {| qid := 1; q_text := "What is the capital of France?" |});
    try reflexivity. left. reflexivity.
Defined.


End PaperProps.

(** *** Paper generation and assignment creation *)
Section TeacherProps.
Import Js Teacher.

Lemma within_In (p t : text) (c : ascii) : within p t -> In c p -> In c t.
Proof.
  intros (a & b & ->) H. apply in_or_app. right. apply in_or_app. left.
  exact H.
Qed.

Lemma split_go_cons (sep : text -> option nat) (cur : text) (c : ascii)
      (s : text) :
  split_go sep 0 cur (c :: s)
  = match sep (c :: s) with
    | Some (S k) => rev cur :: split_go sep k [] s
    | _ => split_go sep 0 (c :: cur) s
    end.
Proof. reflexivity. Qed.

Lemma comma_cons (c : ascii) (s : text) :
  comma (c :: s) = if Ascii.eqb ","%char c then Some 1 else None.
Proof.
  unfold comma.
  change (startsWith (c :: s) ",") with (Ascii.eqb ","%char c && true).
  rewrite andb_true_r. reflexivity.
Qed.

Lemma split_comma_free (s : text) :
  forall cur p,
    ~ In ","%char cur ->
    In p (split_go comma 0 cur s) -> ~ In ","%char p.
Proof.
  induction s as [|c s IH]; intros cur p Hcur Hin.
  - destruct Hin as [<-|[]]. rewrite <- in_rev. exact Hcur.
  - rewrite split_go_cons, comma_cons in Hin.
    destruct (Ascii.eqb_spec ","%char c) as [<-|Hne].
    + destruct Hin as [<-|Hin].
      * rewrite <- in_rev. exact Hcur.
      * apply (IH [] p); [intros [] | exact Hin].
    + apply (IH (c :: cur) p); [|exact Hin].
      intros [Hc|Hc]; [congruence | contradiction].
Qed.

Lemma trimmed_truthy (s : text) : truthy s = true -> s <> [].
Proof. destruct s; [discriminate | intros _ H; discriminate]. Qed.

(** The student names posted with an assignment are clean: each is a run
    of the [studentList] field without a comma, without white space at
    either end, and not empty; a blank field posts no name at all. *)
Theorem student_ids_clean (o : CreateOutcome) (t : State) :
  Forall (fun id =>
            Paper.trimmed id /\ id <> [] /\ ~ In ","%char id /\
            within id (studentList (form t)))
         (student_ids (handleCreateAssignment o t).2) /\
  (truthy (trim (studentList (form t))) = false ->
   student_ids (handleCreateAssignment o t).2 = []).
Proof.
  simpl. unfold studentUsernames. split.
  - destruct (truthy (trim (studentList (form t)))); [|constructor].
    apply List.Forall_forall. intros id Hid.
    apply filter_In in Hid as [Hid Hne].
    apply in_map_iff in Hid as (piece & <- & Hpiece).
    split; [apply trim_trimmed|]. split; [apply trimmed_truthy, Hne|]. split.
    + intros Hc. apply (within_In _ _ _ (trim_within piece)) in Hc.
      revert Hc.
      apply (split_comma_free (trim (studentList (form t))) [] piece);
        [intros [] | exact Hpiece].
    + apply within_trans with piece; [apply trim_within|].
      apply within_trans with (trim (studentList (form t)));
        [|apply trim_within].
      apply split_within with comma. exact Hpiece.
  - intros ->. reflexivity.
Qed.

Example student_ids_sample :
  student_ids (handleCreateAssignment (CreateReplied true None) Sample.teacher).2
  = [ ("ada" : text); ("grace" : text) ].
Proof. reflexivity. Qed.





(** No upload, no generation: as long as no upload has succeeded with a
    session id, whatever uploads were tried, [generatePaperFromSession]
    posts nothing, stores nothing and shows no preview. *)
Theorem generation_needs_upload
        (tries : list (bool * bool * UploadOutcome)) (o : GenerateOutcome)
        (t : State) :
  _teacher_session_id t = None ->
  forallb (fun x =>
             match x with
             | (syllabus, pyq, UploadReplied true _ (Some _)) =>
                 negb syllabus && negb pyq
             | _ => true
             end) tries = true ->
  let t' := fold_left (fun a x => (uploadTeacherSession x.1.1 x.1.2 x.2 a).1)
                      tries t in
  (generatePaperFromSession o t').2 = None /\
  Paper._generated_papers (window (generatePaperFromSession o t').1)
  = Paper._generated_papers (window t) /\
  generatedPapersList (generatePaperFromSession o t').1 = generatedPapersList t.
Proof.
  revert t. induction tries as [|[[syllabus pyq] u] tries IH];
    intros t Hnone Hall; simpl in *.
  - unfold generatePaperFromSession. rewrite Hnone. repeat split.
  - apply andb_true_iff in Hall as [Hx Hall].
    set (t1 := (uploadTeacherSession syllabus pyq u t).1).
    assert (H1 : _teacher_session_id t1 = None /\
                 Paper._generated_papers (window t1)
                 = Paper._generated_papers (window t) /\
                 generatedPapersList t1 = generatedPapersList t).
    { unfold t1, uploadTeacherSession.
      destruct (negb syllabus && negb pyq) eqn:Hn; simpl; [auto|].
      destruct u as [m | [] e [sidv|]]; simpl; auto. discriminate. }
    destruct H1 as (Hs1 & Hp1 & Hl1).
    destruct (IH t1 Hs1 Hall) as (H2 & H3 & H4).
    rewrite <- Hp1, <- Hl1. auto.
Qed.

Lemma generation_needs_upload_witness :
  let tries :=
    [ (false, false, UploadReplied true None (Some ("s-1" : text)));
      (true, false, UploadReplied false (Some ("too large" : text)) None);
      (true, true, UploadRaised "Failed to fetch") ] in
  let t' := fold_left (fun a x => (uploadTeacherSession x.1.1 x.1.2 x.2 a).1)
                      tries Sample.teacher in
  (generatePaperFromSession (GenerateReplied true None "p1" Sample.paper) t').2
  = None /\
  Paper._generated_papers
    (window (generatePaperFromSession
               (GenerateReplied true None "p1" Sample.paper) t').1)
  = Paper._generated_papers (window Sample.teacher) /\
  generatedPapersList
    (generatePaperFromSession (GenerateReplied true None "p1" Sample.paper) t').1
  = generatedPapersList Sample.teacher.
Proof.
  apply (generation_needs_upload
           [ (false, false, UploadReplied true None (Some ("s-1" : text)));
             (true, false, UploadReplied false (Some ("too large" : text)) None);
             (true, true, UploadRaised "Failed to fetch") ]
           (GenerateReplied true None "p1" Sample.paper) Sample.teacher);
    reflexivity.
Defined.

End TeacherProps.

(** *** The recording controller *)
Section RecordingProps.
Import Recording.

Lemma stop_not_listening (r : Recognizer) :
  listening r = false -> stop r = r.
Proof. destruct r as [l c]. simpl. intros ->. reflexivity. Qed.

(** C3, as the script has it: [stopRecording] on an idle controller is a
    no-op on the controller (it stays idle, the recogniser is as it was,
    the indicator is off, a second stop changes nothing).  There is no
    guard in [startRecording]; the guard is in [toggleRecording], the one
    caller, which stops an active controller instead of starting it.
    [startRecording] on an active controller does not acquire the
    microphone again, because the recogniser refuses the second start,
    but the refusal makes it stop the recording: the controller ends
    idle, not active. *)
Theorem recording_idempotence (idle active : Recorder) :
  Idle idle -> Active active ->
  (Idle (stopRecording idle) /\
   recognition (stopRecording idle) = recognition idle /\
   toasts (stopRecording idle) = toasts idle /\
   showsRecording (stopRecording idle) = false /\
   stopRecording (stopRecording idle) = stopRecording idle) /\
  (toggleRecording active = stopRecording active /\
   acquisitions (startRecording active) = acquisitions active /\
   Idle (startRecording active) /\
   showsRecording (startRecording active) = false).
Proof.
  intros [Hflag Hmic] [Hflag' Hmic']. split.
  - unfold Idle, stopRecording, holdsMicrophone, showsRecording in *. simpl.
    destruct (recognition idle) as [r|] eqn:Hr; simpl.
    + rewrite !(stop_not_listening r Hmic), classRemove_twice,
        classRemove_absent. repeat split.
    + rewrite classRemove_twice, classRemove_absent. repeat split.
  - unfold toggleRecording. rewrite Hflag'. split; [reflexivity|].
    unfold Idle, startRecording, holdsMicrophone, acquisitions,
      showsRecording in *.
    destruct (recognition active) as [r|]; [|discriminate].
    unfold start. rewrite Hmic'. simpl.
    rewrite classRemove_absent. repeat split.
Qed.

Lemma recording_idempotence_witness :
  (Idle (stopRecording Sample.idleRecorder) /\
   recognition (stopRecording Sample.idleRecorder)
   = recognition Sample.idleRecorder /\
   toasts (stopRecording Sample.idleRecorder) = toasts Sample.idleRecorder /\
   showsRecording (stopRecording Sample.idleRecorder) = false /\
   stopRecording (stopRecording Sample.idleRecorder)
   = stopRecording Sample.idleRecorder) /\
  (toggleRecording Sample.activeRecorder = stopRecording Sample.activeRecorder /\
   acquisitions (startRecording Sample.activeRecorder)
   = acquisitions Sample.activeRecorder /\
   Idle (startRecording Sample.activeRecorder) /\
   showsRecording (startRecording Sample.activeRecorder) = false).
Proof.
  apply (recording_idempotence Sample.idleRecorder Sample.activeRecorder);
    split; reflexivity.
Defined.

(** C3 as stated fails: [startRecording] on an active controller does
    not leave it active. *)
Lemma startRecording_when_active_stops :
  Active Sample.activeRecorder /\
  ~ Active (startRecording Sample.activeRecorder).
Proof.
  split; [split; reflexivity|]. intros [H _]. vm_compute in H. discriminate.
Qed.

Lemma stopRecording_consistent (rc : Recorder) :
  Consistent (stopRecording rc).
Proof.
  unfold Consistent, stopRecording, holdsMicrophone, showsRecording. simpl.
  rewrite classRemove_absent. destruct (recognition rc); split; reflexivity.
Qed.

Lemma startRecording_consistent (rc : Recorder) :
  Consistent rc -> Consistent (startRecording rc).
Proof.
  intros H. unfold startRecording.
  destruct (recognition rc) as [r|] eqn:Hr.
  - unfold start. destruct (listening r).
    + apply stopRecording_consistent.
    + unfold Consistent, holdsMicrophone, showsRecording. simpl.
      rewrite classContains_add. split; reflexivity.
  - unfold Consistent, holdsMicrophone, showsRecording in *. simpl.
    rewrite Hr in H. exact H.
Qed.

Lemma perform_consistent (rc : Recorder) (op : Op) :
  Consistent rc -> Consistent (perform rc op).
Proof.
  intros H. destruct op; simpl.
  - unfold toggleRecording. destruct (isRecording rc);
      [apply stopRecording_consistent | apply startRecording_consistent, H].
  - apply stopRecording_consistent.
  - apply startRecording_consistent, H.
  - apply stopRecording_consistent.
Qed.

(** The controller stays consistent: when the flag [isRecording], the
    recogniser and the indicator of the button agree, they agree after any
    sequence of presses of the button, errors of the recogniser and direct
    calls of [startRecording] and [stopRecording]; the microphone is held
    exactly when the flag is set and the button shows it. *)
Theorem recording_stays_consistent (rc : Recorder) (ops : list Op) :
  Consistent rc -> Consistent (performAll rc ops).
Proof.
  revert rc. unfold performAll.
  induction ops as [|op ops IH]; intros rc H; simpl; [exact H|].
  apply IH, perform_consistent, H.
Qed.

Lemma recording_stays_consistent_witness :
  Consistent
    (performAll Sample.idleRecorder [Press; Start; Press; SpeechError; Press; Stop]).
Proof.
  apply (recording_stays_consistent Sample.idleRecorder
           [Press; Start; Press; SpeechError; Press; Stop]).
  split; reflexivity.
Defined.



(** Without speech recognition in the browser the controller never
    records: every press of the button leaves the flag off and the button
    as it is, and answers with the toast that recognition is not
    supported. *)
Theorem presses_without_recognition (rc : Recorder) (n : nat) :
  recognition rc = None -> isRecording rc = false ->
  let rc' := performAll rc (repeat Press n) in
  isRecording rc' = false /\
  recognition rc' = None /\
  recordBtn rc' = recordBtn rc /\
  toasts rc'
  = toasts rc ++ repeat (Ui.toast "Speech recognition not supported" "error") n.
Proof.
  revert rc. unfold performAll.
  induction n as [|n IH]; intros rc Hr Hf; simpl.
  - repeat split; try assumption. symmetry. apply app_nil_r.
  - assert (E : recognition (toggleRecording rc) = None /\
                 isRecording (toggleRecording rc) = false /\
                 recordBtn (toggleRecording rc) = recordBtn rc /\
                 toasts (toggleRecording rc)
                 = toasts rc
                     ++ [Ui.toast "Speech recognition not supported" "error"]).
    { unfold toggleRecording, startRecording. rewrite Hf, Hr. simpl.
      auto. }
    destruct E as (E1 & E2 & E3 & E4).
    destruct (IH (toggleRecording rc) E1 E2) as (H1 & H2 & H3 & H4).
    repeat split; try assumption.
    + rewrite H3. exact E3.
    + rewrite H4, E4, <- app_assoc. reflexivity.
Qed.

Lemma presses_without_recognition_witness :
  let rc :=
    {| isRecording := false; recognition := None;
       recordBtn := recordBtn Sample.idleRecorder; toasts := [] |} in
  let rc' := performAll rc (repeat Press 3) in
  isRecording rc' = false /\
  recognition rc' = None /\
  recordBtn rc' = recordBtn rc /\
  toasts rc'
  = toasts rc ++ repeat (Ui.toast "Speech recognition not supported" "error") 3.
Proof.
  apply (presses_without_recognition
           {| isRecording := false; recognition := None;
              recordBtn := recordBtn Sample.idleRecorder; toasts := [] |} 3);
    reflexivity.
Defined.

End RecordingProps.

(** *** The session store *)
Section SessionProps.
Import Js Session.

(** C6, as the script has it: [handleLogout] erases the token, in memory
    and in durable storage, and the user, and shows the log-in screen
    again; it leaves the API key alone, in memory as in durable storage. *)
Theorem handleLogout_clears
        (logoutCallFailed : bool) (v : VerifyOutcome) (s : Store) :
  let s' := handleLogout logoutCallFailed v s in
  authToken s' = None /\
  currentUser s' = None /\
  localStorage s' !! ("authToken" : text) = None /\
  apiKey s' = apiKey s /\
  localStorage s' !! ("apiKey" : text) = localStorage s !! ("apiKey" : text) /\
  page s' = Navigator.showScreen "authScreen" (page s).
Proof.
  cbv zeta. unfold handleLogout, checkAuth. simpl.
  rewrite lookup_delete_eq. simpl.
  repeat split; [apply lookup_delete_eq | apply lookup_delete_ne; discriminate].
Qed.

(** C6 as stated fails: an API key held in memory is still there after
    the logout. *)
Lemma handleLogout_keeps_apiKey :
  apiKey (handleLogout false NotVerified Sample.store) = ("key" : text) /\
  apiKey (handleLogout false NotVerified Sample.store) <> [].
Proof. split; [reflexivity | discriminate]. Qed.

Lemma checkAuth_frame (v : VerifyOutcome) (s : Store) :
  localStorage (checkAuth v s) = localStorage s /\
  apiKey (checkAuth v s) = apiKey s /\
  toasts (checkAuth v s) = toasts s.
Proof.
  unfold checkAuth. destruct (localStorage s !! _) as [token|]; simpl;
    [destruct (truthy token), v; simpl|]; repeat split.
Qed.

Lemma onLoad_apiKey (v : VerifyOutcome) (storage : gmap text text)
      (fresh : Navigator.Document) :
  apiKey (onLoad v storage fresh)
  = orDefault (storage !! ("apiKey" : text)) "".
Proof.
  unfold onLoad.
  destruct (checkAuth_frame v
              {| authToken := None; currentUser := None;
                 apiKey := orDefault (storage !! ("apiKey" : text)) "";
                 localStorage := storage; page := fresh; toasts := [] |})
    as (_ & Ha & _).
  exact Ha.
Qed.

Lemma handleLogout_frame (logoutCallFailed : bool) (v : VerifyOutcome)
      (s : Store) :
  localStorage (handleLogout logoutCallFailed v s) !! ("authToken" : text) = None /\
  localStorage (handleLogout logoutCallFailed v s) !! ("apiKey" : text)
  = localStorage s !! ("apiKey" : text).
Proof.
  unfold handleLogout, checkAuth. simpl. rewrite lookup_delete_eq. simpl.
  split; [apply lookup_delete_eq | apply lookup_delete_ne; discriminate].
Qed.

(** A log-in survives a reload, a refusal of the token does not log in:
    after a log-in that the server accepted, the token is held in memory
    and in durable storage and the dashboard of the user is shown; a page
    loaded on that storage holds the same token again when the server
    verifies it, and holds none and shows the log-in screen when the
    server does not, although the token is still stored. *)
Theorem login_survives_reload
        (username password token : text) (user verified : User)
        (fresh : Navigator.Document) (s : Store) :
  truthy username = true -> truthy password = true -> truthy token = true ->
  let s' := (handleLogin username password (LoginAccepted token user) s).1 in
  authToken s' = Some token /\
  currentUser s' = Some user /\
  localStorage s' !! ("authToken" : text) = Some token /\
  authToken (onLoad (Verified verified) (localStorage s') fresh) = Some token /\
  currentUser (onLoad (Verified verified) (localStorage s') fresh)
  = Some verified /\
  authToken (onLoad NotVerified (localStorage s') fresh) = None /\
  page (onLoad NotVerified (localStorage s') fresh)
  = Navigator.showScreen "authScreen" fresh /\
  localStorage (onLoad NotVerified (localStorage s') fresh) !! ("authToken" : text)
  = Some token.
Proof.
  intros Hu Hp Ht. unfold handleLogin. rewrite Hu, Hp. simpl.
  unfold onLoad, checkAuth. simpl. rewrite lookup_insert_eq, Ht. simpl.
  repeat split; apply lookup_insert_eq.
Qed.

Lemma login_survives_reload_witness :
  let user := {| user_id := 7; username := "ada"; user_type := "teacher" |} in
  let s' := (handleLogin "ada" "secret" (LoginAccepted "token-2" user)
               Sample.store).1 in
  authToken s' = Some ("token-2" : text) /\
  currentUser s' = Some user /\
  localStorage s' !! ("authToken" : text) = Some ("token-2" : text) /\
  authToken (onLoad (Verified user) (localStorage s') Sample.page)
  = Some ("token-2" : text) /\
  currentUser (onLoad (Verified user) (localStorage s') Sample.page)
  = Some user /\
  authToken (onLoad NotVerified (localStorage s') Sample.page) = None /\
  page (onLoad NotVerified (localStorage s') Sample.page)
  = Navigator.showScreen "authScreen" Sample.page /\
  localStorage (onLoad NotVerified (localStorage s') Sample.page)
    !! ("authToken" : text)
  = Some ("token-2" : text).
Proof.
  apply (login_survives_reload "ada" "secret" "token-2"
           {| user_id := 7; username := "ada"; user_type := "teacher" |}
           {| user_id := 7; username := "ada"; user_type := "teacher" |}
           Sample.page Sample.store); reflexivity.
Defined.

(** A log-in that does not succeed changes nothing but the toast: with a
    blank field nothing is posted, and with a blank field, a refusal or an
    error the token, the user, durable storage, the API key and the screen
    are as they were. *)
Theorem failed_login_changes_nothing
        (username password : text) (o : LoginOutcome) (s : Store) :
  (truthy username && truthy password = false \/
   forall token user, o <> LoginAccepted token user) ->
  let s' := (handleLogin username password o s).1 in
  authToken s' = authToken s /\
  currentUser s' = currentUser s /\
  localStorage s' = localStorage s /\
  apiKey s' = apiKey s /\
  page s' = page s /\
  length (toasts s') = length (toasts s) + 1 /\
  (truthy username && truthy password = false ->
   (handleLogin username password o s).2 = None).
Proof.
  intros H. unfold handleLogin.
  destruct (truthy username), (truthy password); simpl;
    try (rewrite length_app; simpl; repeat split; reflexivity).
  destruct H as [H|H]; [discriminate|].
  destruct o as [m | e | token user]; simpl;
    try (rewrite length_app; simpl; repeat split; discriminate).
  exfalso. exact (H token user eq_refl).
Qed.

Lemma failed_login_changes_nothing_witness :
  let s' := (handleLogin "ada" "wrong" (LoginRefused None) Sample.store).1 in
  authToken s' = authToken Sample.store /\
  currentUser s' = currentUser Sample.store /\
  localStorage s' = localStorage Sample.store /\
  apiKey s' = apiKey Sample.store /\
  page s' = page Sample.store /\
  length (toasts s') = length (toasts Sample.store) + 1 /\
  (truthy ("ada" : text) && truthy ("wrong" : text) = false ->
   (handleLogin "ada" "wrong" (LoginRefused None) Sample.store).2 = None).
Proof.
  apply (failed_login_changes_nothing "ada" "wrong" (LoginRefused None)
           Sample.store).
  right. discriminate.
Defined.

(** After a log-out a reload cannot log back in: the page loaded on the
    storage that [handleLogout] leaves holds no token and no user and shows
    the log-in screen, whatever the server would answer, while the API key
    that was saved is read back. *)
Theorem logout_then_reload
        (logoutCallFailed : bool) (v v' : VerifyOutcome)
        (fresh : Navigator.Document) (s : Store) :
  let s' := onLoad v' (localStorage (handleLogout logoutCallFailed v s)) fresh in
  authToken s' = None /\
  currentUser s' = None /\
  page s' = Navigator.showScreen "authScreen" fresh /\
  apiKey s' = orDefault (localStorage s !! ("apiKey" : text)) "".
Proof.
  cbv zeta.
  destruct (handleLogout_frame logoutCallFailed v s) as (Hl & Ha).
  unfold onLoad, checkAuth. cbn [localStorage]. rewrite Hl, Ha.
  repeat split.
Qed.

(** A saved API key is read back: [saveDashboardApiKey] keeps the value of
    the input trimmed, in memory and in durable storage, and a page loaded
    on that storage holds the same key; a blank value, or a page without
    the input, leaves the key and the storage as they were. *)
Theorem saved_apiKey_read_back
        (kept blank : text) (v : VerifyOutcome) (fresh : Navigator.Document)
        (s : Store) :
  truthy (trim kept) = true -> truthy (trim blank) = false ->
  (let s' := saveDashboardApiKey (Some kept) s in
   apiKey s' = trim kept /\
   localStorage s' !! ("apiKey" : text) = Some (trim kept) /\
   localStorage s' !! ("authToken" : text)
   = localStorage s !! ("authToken" : text) /\
   apiKey (onLoad v (localStorage s') fresh) = trim kept) /\
  (let s' := saveDashboardApiKey (Some blank) s in
   apiKey s' = apiKey s /\ localStorage s' = localStorage s) /\
  saveDashboardApiKey None s = s.
Proof.
  intros Hk Hb. cbv zeta. rewrite onLoad_apiKey.
  unfold saveDashboardApiKey. rewrite Hk, Hb. simpl.
  split; [|split; [split|]; reflexivity].
  split; [reflexivity|]. split; [apply lookup_insert_eq|].
  split; [apply lookup_insert_ne; discriminate|].
  rewrite lookup_insert_eq. simpl. unfold orElse. rewrite Hk. reflexivity.
Qed.

Lemma saved_apiKey_read_back_witness :
  (let s' := saveDashboardApiKey (Some (" new-key " : text)) Sample.store in
   apiKey s' = trim " new-key " /\
   localStorage s' !! ("apiKey" : text) = Some (trim " new-key ") /\
   localStorage s' !! ("authToken" : text)
   = localStorage Sample.store !! ("authToken" : text) /\
   apiKey (onLoad NotVerified (localStorage s') Sample.page) = trim " new-key ") /\
  (let s' := saveDashboardApiKey (Some ("   " : text)) Sample.store in
   apiKey s' = apiKey Sample.store /\
   localStorage s' = localStorage Sample.store) /\
  saveDashboardApiKey None Sample.store = Sample.store.
Proof.
  apply (saved_apiKey_read_back " new-key " "   " NotVerified Sample.page
           Sample.store); reflexivity.
Defined.

End SessionProps.

(** *** The navigator *)
Section NavigatorProps.
Import Js Navigator.

Lemma lookup_forEach (sel : nat -> Element -> bool) (f : Element -> Element)
      (d : Document) (i : nat) :
  elements (forEach sel f d) !! i
  = (fun e => if sel i e then f e else e) <$> elements d !! i.
Proof. unfold forEach. simpl. apply list_lookup_imap. Qed.

Lemma findFrom_imap (p : nat -> Element -> bool)
      (g : nat -> Element -> Element) (k : nat) (l : list Element) :
  (forall i e, p i (g i e) = p i e) ->
  findFrom p k (imap (fun i => g (k + i)) l) = findFrom p k l.
Proof.
  intros Hp. revert k. induction l as [|e l IH]; intros k; [reflexivity|].
  rewrite imap_cons. simpl. rewrite Nat.add_0_r, Hp.
  destruct (p k e); [reflexivity|].
  rewrite <- (IH (S k)). f_equal. apply imap_ext. intros i x _. simpl.
  f_equal. lia.
Qed.

Lemma findFrom_Some (p : nat -> Element -> bool) (k j : nat)
      (l : list Element) :
  findFrom p k l = Some j ->
  exists e, k <= j /\ l !! (j - k) = Some e /\ p j e = true.
Proof.
  revert k. induction l as [|e l IH]; intros k H; simpl in H; [discriminate|].
  destruct (p k e) eqn:Hp.
  - injection H as <-. exists e. rewrite Nat.sub_diag. auto.
  - destruct (IH (S k) H) as (x & Hle & Hx & Hpx). exists x.
    split; [lia|]. split; [|exact Hpx].
    replace (j - k) with (S (j - S k)) by lia. exact Hx.
Qed.

Lemma getElementById_forEach (sel : nat -> Element -> bool)
      (f : Element -> Element) (id : text) (d : Document) :
  (forall e, el_id (f e) = el_id e) ->
  getElementById id (forEach sel f d) = getElementById id d.
Proof.
  intros Hf. unfold getElementById, forEach. simpl.
  destruct (truthy id); [|reflexivity].
  apply (findFrom_imap _ (fun i e => if sel i e then f e else e) 0).
  intros i e. destruct (sel i e); [rewrite Hf|]; reflexivity.
Qed.

Lemma contains_remove_same (c : text) (e : Element) :
  contains c (remove c e) = false.
Proof. apply classRemove_absent. Qed.

Lemma contains_remove_other (c c' : text) (e : Element) :
  c <> c' -> contains c (remove c' e) = contains c e.
Proof. apply classContains_remove_other. Qed.

Lemma activeFrom_none (c : text) (k : nat) (l : list Element) :
  Forall (fun e => isActive c e = false) l -> activeFrom c k l = [].
Proof.
  intros H. revert k. induction H as [|e l He _ IH]; intros k; simpl;
    [reflexivity|]. rewrite He, IH. reflexivity.
Qed.

(** After the first step of a transition no element of the class is
    active. *)
Lemma forEach_deactivates (c : text) (d : Document) :
  Forall (fun e => isActive c e = false)
         (elements (forEach (fun _ => contains c) (remove "active") d)).
Proof.
  apply Forall_lookup. intros i e He. rewrite lookup_forEach in He.
  destruct (elements d !! i) as [e0|]; [|discriminate].
  injection He as <-. unfold isActive.
  destruct (contains c e0) eqn:Hc.
  - rewrite contains_remove_same. apply andb_false_r.
  - rewrite Hc. reflexivity.
Qed.

Lemma isActive_remove (c : text) (e : Element) :
  isActive c e = false -> isActive c (remove "active" e) = false.
Proof.
  intros _. unfold isActive. rewrite contains_remove_same.
  apply andb_false_r.
Qed.

Lemma findFrom_data_section (name : text) (j : nat) (l : list Element) :
  findFrom (fun _ e => bool_decide (data_section e = Some name)) 0 l = Some j ->
  exists e, l !! j = Some e /\ data_section e = Some name.
Proof.
  intros H. apply findFrom_Some in H as (e & _ & He & Hp).
  rewrite Nat.sub_0_r in He. apply bool_decide_eq_true in Hp. eauto.
Qed.

(** C4, as the script has it: both transitions begin by deactivating
    every element of their class and only then look the target up.  When
    no element has the id, [showScreen] raises nothing, leaves no screen
    active and does not scroll; [switchSection] (for a plain name) raises
    nothing, scrolls to the top, and leaves no content section and no
    navigation button active, but for the element that carries the name
    in its [data-section] attribute. *)
Theorem missing_target_deactivates (id : text) (d : Document) :
  getElementById id d = None ->
  (activeOf "screen" (showScreen id d) = [] /\
   scroll (showScreen id d) = scroll d) /\
  (plainName (dropSectionSuffix id) = true ->
   exists d',
     switchSection id d = Some d' /\
     scroll d' = (0%Z, 0%Z) /\
     forall i e,
       elements d' !! i = Some e ->
       data_section e <> Some (dropSectionSuffix id) ->
       isActive "content-section" e = false /\ isActive "nav-btn" e = false).
Proof.
  intros Hmissing. split.
  - unfold showScreen.
    rewrite getElementById_forEach, Hmissing by reflexivity.
    split; [|reflexivity].
    apply activeFrom_none, forEach_deactivates.
  - intros Hplain. unfold switchSection.
    rewrite !getElementById_forEach, Hmissing, Hplain by reflexivity.
    set (d1 := forEach _ _ d). set (d2 := forEach _ _ d1).
    assert (Hd2 : forall i e, elements d2 !! i = Some e ->
              isActive "content-section" e = false /\
              isActive "nav-btn" e = false).
    { intros i e He. split.
      - unfold d2 in He. rewrite lookup_forEach in He.
        destruct (elements d1 !! i) as [e1|] eqn:H1; [|discriminate].
        injection He as <-.
        pose proof (proj1 (Forall_lookup _ _)
                      (forEach_deactivates "content-section" d) i e1 H1) as Hin.
        simpl in Hin.
        destruct (contains _ e1); [apply isActive_remove|]; exact Hin.
      - exact (proj1 (Forall_lookup _ _)
                 (forEach_deactivates "nav-btn" d1) i e He). }
    eexists. split; [reflexivity|]. split.
    + destruct (findFrom _ 0 (elements d2)); reflexivity.
    + intros i e He Hname.
      destruct (findFrom _ 0 (elements d2)) as [j|] eqn:Hj; simpl in He.
      * destruct (decide (j = i)) as [->|Hne].
        -- rewrite list_lookup_alter_eq in He.
           apply findFrom_data_section in Hj as (e0 & He0 & Hn).
           unfold d2, d1 in He0. simpl in He0. rewrite He0 in He. injection He as <-. simpl in Hname.
           contradiction.
        -- rewrite list_lookup_alter_ne in He by exact Hne. eauto.
      * eauto.
Qed.

Lemma missing_target_deactivates_witness :
  (activeOf "screen" (showScreen "nopeSection" Sample.page) = [] /\
   scroll (showScreen "nopeSection" Sample.page) = scroll Sample.page) /\
  (plainName (dropSectionSuffix "nopeSection") = true ->
   exists d',
     switchSection "nopeSection" Sample.page = Some d' /\
     scroll d' = (0%Z, 0%Z) /\
     forall i e,
       elements d' !! i = Some e ->
       data_section e <> Some (dropSectionSuffix "nopeSection") ->
       isActive "content-section" e = false /\ isActive "nav-btn" e = false).
Proof.
  apply (missing_target_deactivates "nopeSection" Sample.page). reflexivity.
Defined.

(** C4 as stated fails: no element has the id, and the active screens
    and the active sections are not what they were. *)
Lemma missing_target_changes_active :
  getElementById "nopeSection" Sample.page = None /\
  activeOf "screen" Sample.page = [5] /\
  activeOf "screen" (showScreen "nopeSection" Sample.page) = [] /\
  activeOf "content-section" Sample.page = [3; 8] /\
  option_map (activeOf "content-section")
             (switchSection "nopeSection" Sample.page) = Some [].
Proof. repeat split. Qed.

Lemma sameShape_refl (l : list Element) : sameShape l l.
Proof. split; reflexivity. Qed.

Lemma sameShape_trans (l l' l'' : list Element) :
  sameShape l l' -> sameShape l' l'' -> sameShape l l''.
Proof.
  intros [Hl Hp] [Hl' Hp']. split; [congruence|].
  intros i. rewrite Hp', Hp. reflexivity.
Qed.

Lemma sameShape_forEach (sel : nat -> Element -> bool) (c : text)
      (d : Document) :
  sameShape (elements d) (elements (forEach sel (remove c) d)).
Proof.
  split; [apply length_imap|]. intros i. rewrite lookup_forEach.
  destruct (elements d !! i) as [e|]; [|reflexivity]. simpl.
  destruct (sel i e); reflexivity.
Qed.

Lemma sameShape_update (j : nat) (c : text) (d : Document) :
  sameShape (elements d) (elements (update j (add c) d)).
Proof.
  split; [apply length_alter|]. intros i. simpl.
  destruct (decide (j = i)) as [->|Hne].
  - rewrite list_lookup_alter_eq.
    destruct (elements d !! i) as [e|]; reflexivity.
  - rewrite list_lookup_alter_ne by exact Hne. reflexivity.
Qed.

Lemma ancestorOrSelf_shape (fuel : nat) (l l' : list Element) (a i : nat) :
  sameShape l l' -> ancestorOrSelf fuel l' a i = ancestorOrSelf fuel l a i.
Proof.
  intros [_ Hp]. revert i. induction fuel as [|n IH]; intros i; simpl;
    [reflexivity|]. rewrite Hp.
  destruct (l !! i ≫= parentElement); [rewrite IH|]; reflexivity.
Qed.

Lemma descendant_shape (l l' : list Element) (a i : nat) :
  sameShape l l' -> descendant l' a i = descendant l a i.
Proof.
  intros H. unfold descendant. destruct H as [Hl Hp] eqn:E. rewrite Hp, Hl.
  destruct (l !! i ≫= parentElement); [|reflexivity].
  apply ancestorOrSelf_shape. split; assumption.
Qed.

Lemma querySelectorIn_inside (root j : nat) (p : Element -> bool)
      (d : Document) :
  querySelectorIn root p d = Some j -> descendant (elements d) root j = true.
Proof.
  intros H. apply findFrom_Some in H as (e & _ & _ & H).
  apply andb_true_iff in H as [H _]. exact H.
Qed.

(** One activation of the click handler touches nothing outside the
    dashboard. *)
Lemma activate_inside (dashboard i : nat) (p : Element -> bool)
      (d0 d : Document) :
  sameShape (elements d0) (elements d) ->
  descendant (elements d0) dashboard i = false ->
  let d' :=
    match querySelectorIn dashboard p d with
    | Some j => update j (add "active") d
    | None => d
    end in
  elements d' !! i = elements d !! i /\
  sameShape (elements d0) (elements d').
Proof.
  intros Hshape Hout. simpl.
  destruct (querySelectorIn dashboard p d) as [j|] eqn:Hj; [|auto].
  split.
  - apply querySelectorIn_inside in Hj.
    rewrite (descendant_shape _ _ _ _ Hshape) in Hj. simpl.
    apply list_lookup_alter_ne. congruence.
  - eapply sameShape_trans; [exact Hshape | apply sameShape_update].
Qed.

(** The click handler of a navigation button keeps to its dashboard:
    whatever lies outside the dashboard of the button is as it was. *)
Lemma navClick_scoped (btn dashboard i : nat) (d d' : Document)
      (loads : list Load) :
  closest (length (elements d)) "dashboard-container" (elements d) btn
  = Some dashboard ->
  navClick btn d = Some (d', loads) ->
  descendant (elements d) dashboard i = false ->
  elements d' !! i = elements d !! i.
Proof.
  intros Hdash Hclick Hout. unfold navClick in Hclick.
  destruct (elements d !! btn) as [target|]; [|discriminate].
  rewrite Hdash in Hclick.
  set (section := match data_section target with
                  | Some v => v | None => _ end) in Hclick.
  set (d1 := forEach _ _ d) in Hclick. set (d2 := forEach _ _ d1) in Hclick.
  destruct (identName (section ++ "Section")); [|discriminate].
  assert (H1 : sameShape (elements d) (elements d1))
    by apply sameShape_forEach.
  assert (H2 : sameShape (elements d) (elements d2)).
  { eapply sameShape_trans; [exact H1 | apply sameShape_forEach]. }
  assert (E2 : elements d2 !! i = elements d !! i).
  { transitivity (elements d1 !! i).
    - unfold d2. rewrite lookup_forEach, Hout.
      destruct (elements d1 !! i); reflexivity.
    - unfold d1. rewrite lookup_forEach, Hout.
      destruct (elements d !! i); reflexivity. }
  destruct (activate_inside dashboard i (hasId (section ++ "Section")) d d2 H2 Hout)
    as [E3 H3].
  set (d3 := match querySelectorIn dashboard (hasId (section ++ "Section")) d2 with
             | Some j => update j (add "active") d2 | None => d2 end) in *.
  destruct (activate_inside dashboard i
              (fun e => bool_decide (data_section e = Some section)) d d3 H3 Hout)
    as [E4 _].
  injection Hclick as <- _.
  etransitivity; [exact E4|]. etransitivity; [exact E3|]. exact E2.
Qed.

(** C7 at the failing input: a teacher opens the submissions of a paper,
    which calls [switchSection] with [gradeSection].  The assignments
    section of the student dashboard lies outside the teacher dashboard
    and is active before; it is not active afterwards, although the click
    handler of the grade button, on the same page, leaves it active. *)
Theorem switchSection_crosses_dashboards :
  descendant (elements Sample.page) 5 3 = false /\
  isActive "content-section" <$> elements Sample.page !! 3 = Some true /\
  (isActive "content-section" <$>
     (switchSection "gradeSection" Sample.page ≫= fun d' => elements d' !! 3))
  = Some false /\
  (isActive "content-section" <$>
     (navClick 7 Sample.page ≫= fun r => elements r.1 !! 3))
  = Some true.
Proof. repeat split. Qed.


Lemma activeFrom_one (c : text) (k i : nat) (l : list Element) (e : Element) :
  Forall (fun x => isActive c x = false) l ->
  l !! i = Some e -> contains c e = true ->
  activeFrom c k (alter (add "active") i l) = [k + i].
Proof.
  intros Hall. revert k i.
  induction Hall as [|x l Hx Hall IH]; intros k i He Hc; [discriminate|].
  destruct i as [|i].
  - injection He as ->.
    change (alter (add "active") 0 (e :: l)) with (add "active" e :: l).
    assert (Ha : isActive c (add "active" e) = true).
    { unfold isActive, add, contains. cbn [classList setClassList].
      rewrite classContains_add, (classContains_add_kept _ _ _ Hc).
      reflexivity. }
    cbn [activeFrom].
    rewrite Ha, (activeFrom_none c (S k) l Hall), Nat.add_0_r. reflexivity.
  - change (alter (add "active") (S i) (x :: l))
      with (x :: alter (add "active") i l).
    cbn [activeFrom]. rewrite Hx, (IH (S k) i He Hc). simpl. f_equal. lia.
Qed.

(** [showScreen] on the id of a screen leaves exactly that screen active,
    whatever was active before, and scrolls to the top. *)
Theorem showScreen_one_active (id : text) (i : nat) (e : Element)
        (d : Document) :
  getElementById id d = Some i ->
  elements d !! i = Some e ->
  contains "screen" e = true ->
  activeOf "screen" (showScreen id d) = [i] /\
  scroll (showScreen id d) = (0%Z, 0%Z).
Proof.
  intros Hid He Hscreen. unfold showScreen.
  rewrite getElementById_forEach, Hid by reflexivity.
  split; [|reflexivity].
  set (d1 := forEach (fun _ => contains "screen") (remove "active") d).
  change (activeFrom "screen" 0 (alter (add "active") i (elements d1)) = [0 + i]).
  apply activeFrom_one with (e := remove "active" e).
  - apply forEach_deactivates.
  - unfold d1. rewrite lookup_forEach, He.
    cbn [fmap option_fmap option_map]. rewrite Hscreen. reflexivity.
  - rewrite contains_remove_other by discriminate. exact Hscreen.
Qed.

Lemma showScreen_one_active_witness :
  activeOf "screen" (showScreen "studentDashboard" Sample.page) = [1] /\
  scroll (showScreen "studentDashboard" Sample.page) = (0%Z, 0%Z).
Proof.
  apply (showScreen_one_active "studentDashboard" 1
           (Sample.element "studentDashboard" ["screen"; "dashboard-container"]
              None None)
           Sample.page); reflexivity.
Defined.

Lemma navClick_scoped_witness :
  let clicked :=
    match navClick 7 Sample.page with
    | Some r => r
    | None => (Sample.page, [])
    end in
  elements clicked.1 !! 3 = elements Sample.page !! 3.
Proof.
  apply (navClick_scoped 7 5 3 Sample.page
           (match navClick 7 Sample.page with
            | Some r => r
            | None => (Sample.page, [])
            end).1
           (match navClick 7 Sample.page with
            | Some r => r
            | None => (Sample.page, [])
            end).2); reflexivity.
Defined.


Lemma contains_active_add (e : Element) : contains "active" (add "active" e) = true.
Proof. apply classContains_add. Qed.




Lemma sameButClasses_forEach (sel : nat -> Element -> bool) (c : text)
      (d : Document) :
  Forall2 sameButClasses (elements d) (elements (forEach sel (remove c) d)).
Proof.
  apply Forall2_same_length_lookup. split; [symmetry; apply length_imap|].
  intros i e e' He He'. rewrite lookup_forEach, He in He'.
  injection He' as <-. destruct (sel i e); repeat split.
Qed.

Lemma sameButClasses_update (j : nat) (c : text) (d : Document) :
  Forall2 sameButClasses (elements d) (elements (update j (add c) d)).
Proof.
  apply Forall2_same_length_lookup. split; [symmetry; apply length_alter|].
  intros i e e' He He'. cbn [elements update] in He'.
  destruct (decide (j = i)) as [->|Hne].
  - rewrite list_lookup_alter_eq, He in He'. injection He' as <-. repeat split.
  - rewrite list_lookup_alter_ne, He in He' by exact Hne.
    injection He' as <-. repeat split.
Qed.

Lemma sameButClasses_trans (l l' l'' : list Element) :
  Forall2 sameButClasses l l' -> Forall2 sameButClasses l' l'' ->
  Forall2 sameButClasses l l''.
Proof.
  intros H. revert l''. induction H as [|e e' l l' He H IH]; intros l'' H';
    inversion H' as [|? e'' ? l3 He' H3]; subst; constructor.
  - destruct He as (A & B & C), He' as (A' & B' & C').
    repeat split; congruence.
  - apply IH, H3.
Qed.

Lemma sameButClasses_shape (l l' : list Element) :
  Forall2 sameButClasses l l' -> sameShape l l'.
Proof.
  intros H. split; [symmetry; exact (Forall2_length _ _ _ H)|].
  intros i. destruct (l !! i) as [e|] eqn:He.
  - destruct (Forall2_lookup_l _ _ _ _ _ H He) as (e' & -> & _ & _ & Hp).
    simpl. exact Hp.
  - apply lookup_ge_None in He. rewrite (Forall2_length _ _ _ H) in He.
    apply lookup_ge_None in He. rewrite He. reflexivity.
Qed.

Lemma findFrom_sameButClasses (p q : nat -> Element -> bool) (k : nat)
      (l l' : list Element) :
  Forall2 sameButClasses l l' ->
  (forall i e e', sameButClasses e e' -> p i e' = q i e) ->
  findFrom p k l' = findFrom q k l.
Proof.
  intros H Hpq. revert k. induction H as [|e e' l l' He H IH]; intros k;
    [reflexivity|]. cbn [findFrom]. rewrite (Hpq k e e' He), IH. reflexivity.
Qed.

(** What a scoped query finds depends on ids, attributes and the tree, not
    on classes. *)
Lemma querySelectorIn_sameButClasses (root : nat) (p : Element -> bool)
      (d d' : Document) :
  Forall2 sameButClasses (elements d) (elements d') ->
  (forall e e', sameButClasses e e' -> p e' = p e) ->
  querySelectorIn root p d' = querySelectorIn root p d.
Proof.
  intros H Hp. unfold querySelectorIn.
  apply findFrom_sameButClasses; [exact H|].
  intros i e e' He.
  rewrite (descendant_shape _ _ root i (sameButClasses_shape _ _ H)), (Hp e e' He).
  reflexivity.
Qed.

Lemma hasId_sameButClasses (id : text) (e e' : Element) :
  sameButClasses e e' -> hasId id e' = hasId id e.
Proof. intros (H & _). unfold hasId. rewrite H. reflexivity. Qed.

(** After the two sweeps of the click handler no content section and no
    navigation button inside the dashboard is active. *)
Lemma scoped_sweeps_deactivate (inside : nat -> bool) (d : Document)
      (k : nat) (e : Element) :
  inside k = true ->
  elements (forEach (fun i x => inside i && contains "nav-btn" x) (remove "active")
              (forEach (fun i x => inside i && contains "content-section" x)
                       (remove "active") d))
    !! k = Some e ->
  isActive "content-section" e = false /\ isActive "nav-btn" e = false.
Proof.
  intros Hin He. rewrite !lookup_forEach, Hin in He.
  destruct (elements d !! k) as [e0|]; [|discriminate].
  cbn [fmap option_fmap option_map andb] in He. injection He as <-.
  set (e1 := if contains _ e0 then _ else _).
  assert (A : isActive "content-section" e1 = false).
  { unfold e1, isActive. cbn [String.list_ascii_of_string].
    destruct (contains _ e0) eqn:Hc.
    - rewrite contains_remove_same. apply andb_false_r.
    - rewrite Hc. reflexivity. }
  split.
  - destruct (contains _ e1); [apply isActive_remove|]; exact A.
  - unfold isActive. cbn [String.list_ascii_of_string].
    destruct (contains _ e1) eqn:Hn.
    + rewrite contains_remove_same. apply andb_false_r.
    + rewrite Hn. reflexivity.
Qed.

(** Inside its dashboard the click handler of a navigation button
    activates the section named after the button and the first element that
    carries the name in its [data-section] attribute (the button itself, as
    a rule), and leaves no other content section or navigation button of
    that dashboard active. *)
Theorem navClick_activates
        (btn dashboard : nat) (target : Element) (section : text)
        (d d' : Document) (loads : list Load) :
  elements d !! btn = Some target ->
  data_section target = Some section ->
  closest (length (elements d)) "dashboard-container" (elements d) btn
  = Some dashboard ->
  navClick btn d = Some (d', loads) ->
  let found := querySelectorIn dashboard (hasId (section ++ "Section")) d in
  let named :=
    querySelectorIn dashboard
      (fun e => bool_decide (data_section e = Some section)) d in
  (forall i, found = Some i \/ named = Some i ->
             exists e, elements d' !! i = Some e /\ contains "active" e = true) /\
  (forall k e,
      descendant (elements d) dashboard k = true ->
      elements d' !! k = Some e ->
      found <> Some k -> named <> Some k ->
      isActive "content-section" e = false /\ isActive "nav-btn" e = false).
Proof.
  intros Htarget Hsection Hdash Hclick found named. unfold navClick in Hclick.
  rewrite Htarget, Hdash, Hsection in Hclick.
  set (inside := descendant (elements d) dashboard) in *.
  set (d1 := forEach _ _ d) in Hclick. set (d2 := forEach _ _ d1) in Hclick.
  destruct (identName (section ++ "Section")); [|discriminate].
  assert (S2 : Forall2 sameButClasses (elements d) (elements d2)).
  { eapply sameButClasses_trans; apply sameButClasses_forEach. }
  assert (Q3 : querySelectorIn dashboard (hasId (section ++ "Section")) d2 = found).
  { apply querySelectorIn_sameButClasses; [exact S2|].
    apply hasId_sameButClasses. }
  rewrite Q3 in Hclick.
  set (d3 := match found with
             | Some i => update i (add "active") d2 | None => d2 end) in *.
  assert (S3 : Forall2 sameButClasses (elements d) (elements d3)).
  { unfold d3. destruct found; [|exact S2].
    eapply sameButClasses_trans; [exact S2 | apply sameButClasses_update]. }
  assert (Q4 : querySelectorIn dashboard
                 (fun e => bool_decide (data_section e = Some section)) d3 = named).
  { apply querySelectorIn_sameButClasses; [exact S3|].
    intros e e' (_ & H & _). rewrite H. reflexivity. }
  rewrite Q4 in Hclick. injection Hclick as <- _.
  assert (L3 : forall k, found <> Some k -> elements d3 !! k = elements d2 !! k).
  { intros k Hk. unfold d3. destruct found as [i|]; [|reflexivity].
    cbn [elements update]. apply list_lookup_alter_ne. congruence. }
  assert (A3 : forall i, found = Some i ->
                 exists e, elements d3 !! i = Some e /\ contains "active" e = true).
  { intros i Hi. unfold d3. rewrite Hi. cbn [elements update].
    rewrite list_lookup_alter_eq.
    assert (Hq : querySelectorIn dashboard (hasId (section ++ "Section")) d2 = Some i)
      by (rewrite Q3; exact Hi).
    apply findFrom_Some in Hq as (e & _ & He & _).
    rewrite Nat.sub_0_r in He. rewrite He. eexists.
    split; [reflexivity | apply contains_active_add]. }
  split.
  - intros i Hi. destruct named as [j|] eqn:Hj.
    + cbn [elements update].
      destruct (decide (j = i)) as [->|Hne].
      * rewrite list_lookup_alter_eq.
        assert (Hq : querySelectorIn dashboard
                       (fun e => bool_decide (data_section e = Some section)) d3
                     = Some i) by exact Q4.
        apply findFrom_Some in Hq as (e & _ & He & _).
        rewrite Nat.sub_0_r in He. rewrite He. eexists.
        split; [reflexivity | apply contains_active_add].
      * rewrite list_lookup_alter_ne by exact Hne.
        destruct Hi as [Hi|Hi]; [exact (A3 i Hi) | congruence].
    + destruct Hi as [Hi|Hi]; [exact (A3 i Hi) | discriminate].
  - intros k e Hin He Hf Hn.
    assert (He3 : elements d3 !! k = Some e).
    { destruct named as [j|]; [|exact He].
      cbn [elements update] in He.
      rewrite list_lookup_alter_ne in He by congruence. exact He. }
    rewrite (L3 k Hf) in He3.
    exact (scoped_sweeps_deactivate inside d k e Hin He3).
Qed.

Lemma navClick_activates_witness :
  let clicked :=
    match navClick 7 Sample.page with
    | Some r => r
    | None => (Sample.page, [])
    end in
  let found :=
    querySelectorIn 5 (hasId (("grade" : text) ++ "Section")) Sample.page in
  let named :=
    querySelectorIn 5
      (fun e => bool_decide (data_section e = Some ("grade" : text))) Sample.page in
  (forall i, found = Some i \/ named = Some i ->
             exists e, elements clicked.1 !! i = Some e /\
                       contains "active" e = true) /\
  (forall k e,
      descendant (elements Sample.page) 5 k = true ->
      elements clicked.1 !! k = Some e ->
      found <> Some k -> named <> Some k ->
      isActive "content-section" e = false /\ isActive "nav-btn" e = false).
Proof.
  apply (navClick_activates 7 5 (Sample.element "" ["nav-btn"] (Some "grade") (Some 5))
           "grade" Sample.page
           (match navClick 7 Sample.page with
            | Some r => r
            | None => (Sample.page, [])
            end).1
           (match navClick 7 Sample.page with
            | Some r => r
            | None => (Sample.page, [])
            end).2); reflexivity.
Defined.

End NavigatorProps.

(** *** The recording controller of the learning session *)
Section LearningProps.
Import Learning.







End LearningProps.
